(** * Release publishing script and grid cell editors

    A shallow embedding of two fragments of the repository:

    - [build/azure-pipelines/common/publish.js], the command-line script
      that uploads a build artifact to blob storage and records it in the
      release document of its commit;
    - [src/sql/base/browser/ui/table/tableCellEditorFactory.ts], the
      factory of in-place text and dropdown editors of the grid.

    The script talks to the file system, the blob service and the
    document database.  These are not part of the repository: they are
    taken as an arbitrary record of services acting on an arbitrary
    world, so that every statement below holds whatever the services
    answer.  A run of the script yields its outcome, the world it leaves
    and the list of calls it made, in order, each with its answer. *)

From Stdlib Require Import Ascii String ZArith Lia.
From stdpp Require Import gmap strings list.

Local Open Scope string_scope.
Local Open Scope list_scope.

(** ** JavaScript values the script manipulates *)

Module Js.

(** A regular expression of the script, as far as the script uses them:
    a sequence of literal characters and of [.] wildcards. *)
Variant Atom :=
| Lit (c : ascii)
| AnyChar.

Definition Pattern := list Atom.

Definition literal (s : string) : Pattern :=
  map Lit (list_ascii_of_string s).

(** [.] matches any character but a line terminator. *)
Definition is_line_terminator (c : ascii) : bool :=
  (Ascii.eqb c "010" || Ascii.eqb c "013")%char.

Definition atom_matches (a : Atom) (c : ascii) : bool :=
  match a with
  | Lit c' => Ascii.eqb c' c
  | AnyChar => negb (is_line_terminator c)
  end.

(** The pattern matches a prefix of the string. *)
Fixpoint matches_here (p : Pattern) (s : string) : bool :=
  match p, s with
  | [], _ => true
  | _ :: _, EmptyString => false
  | a :: p', String c s' => atom_matches a c && matches_here p' s'
  end.

(** [/p/.test(s)]: the pattern matches somewhere in the string. *)
Fixpoint test (p : Pattern) (s : string) : bool :=
  matches_here p s ||
  match s with
  | EmptyString => false
  | String _ s' => test p s'
  end.

(** [/^p/.test(s)]. *)
Definition test_anchored_start (p : Pattern) (s : string) : bool :=
  matches_here p s.

(** [String(v)] of a value that is a string or [undefined]. *)
Definition String_ (v : option string) : string :=
  match v with
  | Some s => s
  | None => "undefined"
  end.

(** [!v] of a value that is a string or [undefined]. *)
Definition falsy (v : option string) : bool :=
  match v with
  | Some s => String.eqb s ""
  | None => true
  end.

(** The [code] property of an error: database errors carry the HTTP
    status as a number, Node's system errors a string. *)
Variant Code :=
| Num (n : Z)
| Str (s : string).

(** An error object: [message] and [code] may each be missing. *)
Record Error := mkError {
  message : option string;
  code : option Code
}.

(** [new Error(msg)]. *)
Definition new_Error (msg : string) : Error :=
  {| message := Some msg; code := None |}.

(** [err.code === 409]. *)
Definition code_is (n : Z) (err : Error) : bool :=
  match code err with
  | Some (Num m) => (m =? n)%Z
  | _ => false
  end.

End Js.

(** ** Documents of the release database *)

(** One published file of a build, for a platform and a file type.
    [supportsFastUpdate] is present on some assets only. *)
Module Asset.
Record t := mk {
  platform : string;
  type : string;
  url : string;
  hash : string;
  sha256hash : string;
  size : Z;
  supportsFastUpdate : option bool
}.

(** The pair an asset is published for. *)
Definition key (a : t) : string * string := (platform a, type a).
End Asset.

(** The configuration document of a quality channel. *)
Module Config.
Record t := mk {
  id : string;
  frozen : bool
}.
End Config.

(** The release document of a commit.  [_self] is the link the database
    adds to a stored document; [updates] maps a platform to the file
    type that updates it. *)
Module Release.
Record t := mk {
  id : string;
  timestamp : Z;
  version : string;
  isReleased : bool;
  sourceBranch : option string;
  queuedBy : option string;
  assets : list Asset.t;
  updates : gmap string string;
  _self : option string
}.

Definition with_assets (assets' : list Asset.t) (r : t) : t :=
  mk (id r) (timestamp r) (version r) (isReleased r) (sourceBranch r)
     (queuedBy r) assets' (updates r) (_self r).

Definition with_updates (updates' : gmap string string) (r : t) : t :=
  mk (id r) (timestamp r) (version r) (isReleased r) (sourceBranch r)
     (queuedBy r) (assets r) updates' (_self r).
End Release.

(** ** The world outside the script *)

(** What a Node callback [(err, result) => ...] receives. *)
Variant Reply (A : Type) :=
| Ok (a : A)
| Err (e : Js.Error).
Arguments Ok {A} a.
Arguments Err {A} e.

(** What a readable stream delivers to its listeners: chunks of data,
    then [close], or an [error] that ends it. *)
Variant Stream :=
| Closed (chunks : list string)
| Errored (chunks : list string) (e : Js.Error).

(** The options [uploadBlob] passes with the file. *)
Record BlobOptions := {
  contentType : string;
  cacheControl : string
}.

(** The state of a promise once the run is over. *)
Variant Outcome (A : Type) :=
| Resolved (a : A)
| Rejected (e : Js.Error)
| Pending.
Arguments Resolved {A} a.
Arguments Rejected {A} e.
Arguments Pending {A}.

(** An argument of a [console] call; [LTemplate] is a template literal
    with its interpolated values. *)
#[warnings="-register-all"]
Inductive LogArg :=
| LTemplate (parts : list LogArg)
| LStr (s : string)
| LVal (v : option string)
| LNum (n : Z)
| LBool (b : bool)
| LErr (e : Js.Error)
| LConfig (c : Config.t)
| LJson (a : Asset.t).

(** The calls a run makes, each with the answer it got. *)
Variant Event :=
| ConsoleLog (args : list LogArg)
| ConsoleWarn (args : list LogArg)
| ConsoleError (args : list LogArg)
| FsStat (file : string) (r : Reply Z)
| FsReadStream (file : string) (r : Stream)
| CreateContainerIfNotExists (container : string) (err : option Js.Error)
| DoesBlobExist (container blob : string) (r : Reply bool)
| CreateBlockBlobFromLocalFile (container blob file : string)
    (options : BlobOptions) (err : option Js.Error)
| QueryConfig (collection quality : string) (r : Reply (list Config.t))
| QueryDocuments (collection id : string) (r : Reply (list Release.t))
| CreateDocument (collection : string) (doc : Release.t) (err : option Js.Error)
| ReplaceDocument (link : option string) (doc : Release.t) (err : option Js.Error)
| ProcessExit (status : Z).

(** The file system, the blob service, the document database and the
    clock.  Each call reads the world and may change it. *)
Record Services (World : Type) := {
  fs_stat : string -> World -> Reply Z * World;
  fs_createReadStream : string -> World -> Stream * World;
  blob_createContainerIfNotExists : string -> World -> option Js.Error * World;
  blob_doesBlobExist : string -> string -> World -> Reply bool * World;
  blob_createBlockBlobFromLocalFile :
    string -> string -> string -> BlobOptions -> World -> option Js.Error * World;
  db_queryConfig : string -> string -> World -> Reply (list Config.t) * World;
  db_queryDocuments : string -> string -> World -> Reply (list Release.t) * World;
  db_createDocument : string -> Release.t -> World -> option Js.Error * World;
  db_replaceDocument : option string -> Release.t -> World -> option Js.Error * World;
  Date_now : World -> Z
}.
Arguments fs_stat {World}.
Arguments fs_createReadStream {World}.
Arguments blob_createContainerIfNotExists {World}.
Arguments blob_doesBlobExist {World}.
Arguments blob_createBlockBlobFromLocalFile {World}.
Arguments db_queryConfig {World}.
Arguments db_queryDocuments {World}.
Arguments db_createDocument {World}.
Arguments db_replaceDocument {World}.
Arguments Date_now {World}.

(** What [minimist] makes of the command line: the positional arguments
    and the [--upload-only] flag. *)
Record Argv := {
  positional : list string;
  upload_only : bool
}.

(** The pure library functions the script imports. *)
Record Modules := {
  minimist : list string -> Argv;
  mime_lookup : string -> string;
  crypto_digest : string -> list string -> string
}.

(** [process.argv] and [process.env]. *)
Record Process := {
  argv : list string;
  env : gmap string string
}.

(** ** Runs of asynchronous code *)

Module Async.

(** What a run carries besides the world: the counter [updateTries] that
    [createOrUpdate] declares and its inner function [update] shares
    between all its calls. *)
Record State (World : Type) := mkState {
  world : World;
  updateTries : nat
}.
Arguments mkState {World}.
Arguments world {World}.
Arguments updateTries {World}.

(** An asynchronous computation, run to its end from a state: how its
    promise settles, the state it leaves, the calls it made. *)
Definition M (World A : Type) : Type :=
  State World -> Outcome A * State World * list Event.

Section Monad.
Context {World : Type}.

Definition ret {A} (a : A) : M World A :=
  fun s => (Resolved a, s, []).

(** [throw err], or a call of the promise's [e] callback. *)
Definition throw {A} (err : Js.Error) : M World A :=
  fun s => (Rejected err, s, []).

(** A promise that never settles. *)
Definition never {A} : M World A :=
  fun s => (Pending, s, []).

(** [await p], for a promise whose outcome is known. *)
Definition await {A} (p : Outcome A) : M World A :=
  fun s => (p, s, []).

Definition bind {A B} (m : M World A) (k : A -> M World B) : M World B :=
  fun s =>
    match m s with
    | (Resolved a, s1, t1) =>
        let '(r, s2, t2) := k a s1 in (r, s2, t1 ++ t2)
    | (Rejected err, s1, t1) => (Rejected err, s1, t1)
    | (Pending, s1, t1) => (Pending, s1, t1)
    end.

(** [try { m } catch (err) { handler }]. *)
Definition try_catch {A} (m : M World A) (handler : Js.Error -> M World A)
  : M World A :=
  fun s =>
    match m s with
    | (Rejected err, s1, t1) =>
        let '(r, s2, t2) := handler err s1 in (r, s2, t1 ++ t2)
    | run => run
    end.

(** A call that leaves the world alone and is only recorded. *)
Definition emit (ev : Event) : M World unit :=
  fun s => (Resolved tt, s, [ev]).

(** A call of a service: the world answers, the call is recorded with
    its answer, and [settle] is the callback that settles the promise. *)
Definition call {R A} (service : World -> R * World) (record : R -> Event)
    (settle : R -> Outcome A) : M World A :=
  fun s =>
    let '(r, w) := service (world s) in
    (settle r, mkState w (updateTries s), [record r]).

Definition get_updateTries : M World nat :=
  fun s => (Resolved (updateTries s), s, []).

Definition set_updateTries (n : nat) : M World unit :=
  fun s => (Resolved tt, mkState (world s) n, []).

(** [Promise.all([p, q])]: rejects with the rejection that comes first. *)
Definition Promise_all {A B} (p : Outcome A) (q : Outcome B) : Outcome (A * B) :=
  match p, q with
  | Resolved a, Resolved b => Resolved (a, b)
  | Rejected err, _ => Rejected err
  | _, Rejected err => Rejected err
  | _, _ => Pending
  end.

End Monad.

Definition outcome {World A} (run : Outcome A * State World * list Event) : Outcome A :=
  run.1.1.

Definition final {World A} (run : Outcome A * State World * list Event) : State World :=
  run.1.2.

Definition trace {World A} (run : Outcome A * State World * list Event) : list Event :=
  run.2.

(** A run that comes after the calls [t]. *)
Definition after {World A} (t : list Event)
    (run : Outcome A * State World * list Event)
  : Outcome A * State World * list Event :=
  let '(r, s, t') := run in (r, s, t ++ t').

End Async.

Declare Scope async_scope.
Delimit Scope async_scope with async.
Notation "'let*' x ':=' m 'in' k" := (Async.bind m (fun x => k))
  (at level 10, x name, m at level 100, k at level 200) : async_scope.
Notation "'let*' ' p ':=' m 'in' k" := (Async.bind m (fun p => k))
  (at level 10, p strict pattern, m at level 100, k at level 200)
  : async_scope.
Notation "m ;; k" := (Async.bind m (fun _ => k))
  (at level 100, k at level 200, right associativity) : async_scope.

(** ** The publish script *)

Module Publish.
Import Async.
Local Open Scope async_scope.

Definition RETRY_TIMES : nat := 10.

(** The bound [updateTries < 5] of [update]. *)
Definition MAX_UPDATE_TRIES : nat := 5.

Definition createDefaultConfig (quality : string) : Config.t :=
  {| Config.id := quality; Config.frozen := false |}.

(** The rewrite of the asset list in [update]: the entries of the
    published platform and type are filtered out, the asset is added
    last. *)
Definition updated_assets (platform type : string) (asset : Asset.t)
    (assets : list Asset.t) : list Asset.t :=
  List.filter
    (fun a => negb (String.eqb (Asset.platform a) platform
                    && String.eqb (Asset.type a) type))
    assets
  ++ [asset].

(** What [update] makes of the document it found. *)
Definition updated_release (platform type : string) (asset : Asset.t)
    (isUpdate : bool) (release : Release.t) : Release.t :=
  let release :=
    Release.with_assets
      (updated_assets platform type asset (Release.assets release)) release in
  if isUpdate
  then Release.with_updates (<[platform := type]> (Release.updates release)) release
  else release.

(** [fs.stat] called without a path throws before anything is asked of
    the file system (the quotes of Node's message are left out). *)
Definition invalid_path_error : Js.Error :=
  {| Js.message :=
       Some "The path argument must be of type string or an instance of Buffer or URL. Received undefined";
     Js.code := Some (Js.Str "ERR_INVALID_ARG_TYPE") |}.

Definition usage : string :=
  "Usage: node publish.js <product_quality> <platform> <file_type> <file_name> <version> <is_update> <file> [commit_id]".

(** What [retry] logs when run number [run] fails with a connection
    reset. *)
Definition caught (err : Js.Error) (run : nat) : list LogArg :=
  [LTemplate [LStr "Caught error "; LErr err; LStr " - "; LNum (Z.of_nat run);
              LStr "/"; LNum (Z.of_nat RETRY_TIMES)]].

Section Script.
Context {World : Type}.
Variable services : Services World.
Variable modules : Modules.
Variable process : Process.

Definition log (args : list LogArg) : M World unit :=
  emit (ConsoleLog args).

(** [hashStream]: the digest of what the stream delivered when it
    closes, its error when it fails. *)
Definition hashStream (hashName : string) (stream : Stream) : Outcome string :=
  match stream with
  | Closed chunks => Resolved (crypto_digest modules hashName chunks)
  | Errored _ err => Rejected err
  end.

(** [retry], from run number [run] with [remaining] runs left:
    [remaining] is [RETRY_TIMES + 1 - run]. *)
Fixpoint retry_from {A} (remaining run : nat) (fn : M World A) : M World A :=
  match remaining with
  | O => throw (Js.new_Error "Retried too many times")
  | S remaining' =>
      try_catch fn (fun err =>
        if negb (Js.test (Js.literal "ECONNRESET") (Js.String_ (Js.message err)))
        then throw err
        else log (caught err run) ;; retry_from remaining' (S run) fn)
  end.

Definition retry {A} (fn : M World A) : M World A :=
  retry_from RETRY_TIMES 1 fn.

Definition getConfig (quality : string) : M World Config.t :=
  log [LTemplate [LStr "Getting config for quality "; LStr quality]] ;;
  let collection := "dbs/builds/colls/config" in
  retry
    (call (db_queryConfig services collection quality)
       (QueryConfig collection quality)
       (fun reply =>
          match reply with
          | Err err =>
              if negb (Js.code_is 409 err) then Rejected err
              else Resolved (createDefaultConfig quality)
          | Ok [] => Resolved (createDefaultConfig quality)
          | Ok (config :: _) => Resolved config
          end)).

Section CreateOrUpdate.
Variables commit quality platform type : string.
Variable release : Release.t.
Variable asset : Asset.t.
Variable isUpdate : bool.

Definition collection : string := "dbs/builds/colls/" +:+ quality.

(** The body of the inner function [update], with [again] for the call
    of [update] in it. *)
Definition update_body (again : M World unit) : M World unit :=
  let* tries := get_updateTries in
  set_updateTries (S tries) ;;
  log [LStr "Querying existing documents to update..."] ;;
  let* reply :=
    call (db_queryDocuments services collection commit)
      (QueryDocuments collection commit) Resolved in
  match reply with
  | Err err => throw err
  | Ok [found] =>
      let release := updated_release platform type asset isUpdate found in
      log [LStr "Replacing existing document with updated version"] ;;
      let* err :=
        call (db_replaceDocument services (Release._self release) release)
          (ReplaceDocument (Release._self release) release) Resolved in
      let* tries := get_updateTries in
      match err with
      | Some err =>
          if Js.code_is 409 err && (tries <? MAX_UPDATE_TRIES)%nat
          then again
          else throw err
      | None => log [LStr "Build successfully updated."]
      end
  | Ok _ => throw (Js.new_Error "No documents")
  end.

(** [update] calls itself while [updateTries] is below five; [fuel]
    bounds these calls for the definition to be accepted, and
    [update_settles] shows that it never runs out. *)
Fixpoint update_fuel (fuel : nat) : M World unit :=
  update_body
    match fuel with
    | S fuel' => update_fuel fuel'
    | O => never
    end.

Definition update : M World unit := update_fuel MAX_UPDATE_TRIES.

(** The function [createOrUpdate] hands to [retry]: one attempt to
    create the document. *)
Definition create_attempt : M World unit :=
  log [LStr "Attempting to create document"] ;;
  let* err :=
    call (db_createDocument services collection release)
      (CreateDocument collection release) Resolved in
  match err with
  | Some err => if Js.code_is 409 err then update else throw err
  | None => log [LStr "Build successfully published."]
  end.

Definition createOrUpdate : M World unit :=
  set_updateTries 0 ;;
  retry create_attempt.

End CreateOrUpdate.

Definition assertContainer (quality : string) : M World unit :=
  call (blob_createContainerIfNotExists services quality)
    (CreateContainerIfNotExists quality)
    (fun err => match err with Some err => Rejected err | None => Resolved tt end).

Definition doesAssetExist (quality blobName : string) : M World bool :=
  call (blob_doesBlobExist services quality blobName)
    (DoesBlobExist quality blobName)
    (fun reply => match reply with Err err => Rejected err | Ok r => Resolved r end).

Definition uploadBlob (quality blobName file : string) : M World unit :=
  let blobOptions :=
    {| contentType := mime_lookup modules file;
       cacheControl := "max-age=31536000, public" |} in
  call (blob_createBlockBlobFromLocalFile services quality blobName file blobOptions)
    (CreateBlockBlobFromLocalFile quality blobName file blobOptions)
    (fun err => match err with Some err => Rejected err | None => Resolved tt end).

(** The first lines of [publish], up to the call of [fs.stat]. *)
Definition publish_header (commit : string)
    (quality platform type name version : option string) (isUpdate : bool)
    (file : option string) : M World unit :=
  log [LStr "Publishing..."] ;;
  log [LStr "Quality:"; LVal quality] ;;
  log [LStr "Platform:"; LVal platform] ;;
  log [LStr "Type:"; LVal type] ;;
  log [LStr "Name:"; LVal name] ;;
  log [LStr "Version:"; LVal version] ;;
  log [LStr "Commit:"; LStr commit] ;;
  log [LStr "Is Update:"; LBool isUpdate] ;;
  log [LStr "File:"; LVal file].

(** The test of [isReleased]: an insider build of main or a release
    candidate of a release branch, queued by the build service. *)
Definition is_released (quality : string) (sourceBranch queuedBy : option string)
  : bool :=
  let sourceBranch := Js.String_ sourceBranch in
  let queuedBy := Js.String_ queuedBy in
  ((String.eqb quality "insider"
    && (String.eqb sourceBranch "main" || String.eqb sourceBranch "refs/heads/main"))
   || (String.eqb quality "rc1"
       && (Js.test_anchored_start (Js.literal "release/") sourceBranch
           || Js.test_anchored_start (Js.literal "refs/heads/release/") sourceBranch)))
  && (Js.test (Js.literal "Project Collection Service Accounts") queuedBy
      || Js.test
           (Js.literal "Microsoft" ++ [Js.AnyChar] ++ Js.literal "VisualStudio"
            ++ [Js.AnyChar] ++ Js.literal "Services" ++ [Js.AnyChar]
            ++ Js.literal "TFS")
           queuedBy).

(** The [asset] that [publish] builds: the object literal, then the
    flag set on the platforms that [/win32/] matches. *)
Definition new_asset (quality platform type blobName sha1hash sha256hash : string)
    (size : Z) : Asset.t :=
  {| Asset.platform := platform;
     Asset.type := type;
     Asset.url :=
       Js.String_ (env process !! "AZURE_CDN_URL") +:+ "/" +:+ quality
       +:+ "/" +:+ blobName;
     Asset.hash := sha1hash;
     Asset.sha256hash := sha256hash;
     Asset.size := size;
     Asset.supportsFastUpdate :=
       if Js.test (Js.literal "win32") platform then Some true else None |}.

(** The [release] that [publish] builds: the object literal with no
    asset and no update, to which the asset and the update are added
    unless [--upload-only] is set. *)
Definition new_release (commit quality platform type version : string)
    (isUpdate : bool) (opts : Argv) (asset : Asset.t) (now : Z) : Release.t :=
  let queuedBy := env process !! "BUILD_QUEUEDBY" in
  let sourceBranch := env process !! "BUILD_SOURCEBRANCH" in
  {| Release.id := commit;
     Release.timestamp := now;
     Release.version := version;
     Release.isReleased := is_released quality sourceBranch queuedBy;
     Release.sourceBranch := sourceBranch;
     Release.queuedBy := queuedBy;
     Release.assets := if upload_only opts then [] else [asset];
     Release.updates :=
       if upload_only opts then ∅
       else if isUpdate then <[platform := type]> ∅ else ∅;
     Release._self := None |}.

(** [(new Date()).getTime()]. *)
Definition getTime : M World Z :=
  fun s => (Resolved (Date_now services (world s)), s, []).

Definition publish (commit quality platform type name version _isUpdate file : string)
    (opts : Argv) : M World unit :=
  let isUpdate := String.eqb _isUpdate "true" in
  publish_header commit (Some quality) (Some platform) (Some type) (Some name)
    (Some version) isUpdate (Some file) ;;
  let* size :=
    call (fs_stat services file) (FsStat file)
      (fun reply => match reply with Err err => Rejected err | Ok size => Resolved size end) in
  log [LStr "Size:"; LNum size] ;;
  let* stream :=
    call (fs_createReadStream services file) (FsReadStream file) Resolved in
  let* '(sha1hash, sha256hash) :=
    await (Promise_all (hashStream "sha1" stream) (hashStream "sha256" stream)) in
  log [LStr "SHA1:"; LStr sha1hash] ;;
  log [LStr "SHA256:"; LStr sha256hash] ;;
  let blobName := commit +:+ "/" +:+ name in
  assertContainer quality ;;
  let* blobExists := doesAssetExist quality blobName in
  if blobExists
  then
    log [LTemplate [LStr "Blob "; LStr quality; LStr ", "; LStr blobName;
                    LStr " already exists, not publishing again."]]
  else
    log [LStr "Uploading blobs to Azure storage..."] ;;
    uploadBlob quality blobName file ;;
    log [LStr "Blobs successfully uploaded."] ;;
    let* config := getConfig quality in
    log [LStr "Quality config:"; LConfig config] ;;
    let asset := new_asset quality platform type blobName sha1hash sha256hash size in
    log [LStr "Asset:"; LJson asset] ;;
    let* now := getTime in
    let release :=
      new_release commit quality platform type version isUpdate opts asset now in
    createOrUpdate commit quality platform type release asset isUpdate.

(** [publish] when the command line has fewer than seven positional
    arguments: [file] is [undefined], as may be the arguments before it,
    and [fs.stat] throws in the executor of its promise. *)
Definition publish_without_file (commit : string) (args : list string)
  : M World unit :=
  publish_header commit (args !! 0%nat) (args !! 1%nat) (args !! 2%nat)
    (args !! 3%nat) (args !! 4%nat)
    (bool_decide (args !! 5%nat = Some "true")) None ;;
  throw invalid_path_error.

(** The call of [publish] in [main], with the positional arguments
    destructured from [opts._]. *)
Definition publish_from (opts : Argv) (commit : string) : M World unit :=
  match positional opts with
  | quality :: platform :: type :: name :: version :: _isUpdate :: file :: _ =>
      publish commit quality platform type name version _isUpdate file opts
  | args => publish_without_file commit args
  end.

(** How the process ends: the status given to [process.exit], or zero
    when the script returns and nothing is left to run. *)
Definition exit (status : Z) (t : list Event) (s : State World)
  : option Z * State World * list Event :=
  (Some status, s, t ++ [ProcessExit status]).

Definition main (s : State World) : option Z * State World * list Event :=
  match env process !! "BUILD_SOURCEVERSION" with
  | None | Some "" =>
      (Some 0%Z, s,
       [ConsoleWarn [LStr "Skipping publish due to missing BUILD_SOURCEVERSION"]])
  | Some commit =>
      let opts := minimist modules (drop 2 (argv process)) in
      match publish_from opts commit s with
      | (Resolved _, s', t) => (Some 0%Z, s', t)
      | (Rejected err, s', t) => exit 1 (t ++ [ConsoleError [LErr err]]) s'
      | (Pending, s', t) => (None, s', t)
      end
  end.

(** The whole script: the check of the command line, then [main]. *)
Definition script (s : State World) : option Z * State World * list Event :=
  if (length (argv process) <? 9)%nat
  then exit (-1) [ConsoleError [LStr usage]] s
  else main s.

End Script.
End Publish.

(** ** The cell editors of the grid *)

Module TableCellEditor.

(** A row of the grid: the values of its fields. *)
Abbreviation SlickData := (gmap string string).

Record Column := {
  field : string
}.

Record Cell := {
  row : nat;
  cell : nat
}.

Record Grid := {
  getActiveCell : Cell
}.

(** [Slick.ValidateResults]. *)
Record ValidateResults := {
  valid : bool;
  msg : option string
}.

Variant InputType :=
| text
| number.

(** The keys both editors capture. *)
Variant KeyCode :=
| Home
| End_
| UpArrow
| DownArrow
| LeftArrow
| RightArrow.

(** The widget toolkit the editors are built on: DOM elements, the input
    box, the select box and the editable dropdown.  The toolkit is not
    part of the fragment; the editors only call it. *)
Class Toolkit := {
  HTMLElement : Type;
  IContextViewProvider : Type;
  InputBox : Type;
  SelectBox : Type;
  Dropdown : Type;
  (** [DOM.$(description)] *)
  DOM_create : string -> HTMLElement;
  (** [parent.appendChild(child)] *)
  appendChild : HTMLElement -> HTMLElement -> HTMLElement;
  (** [element.style[property] = value] *)
  set_style : string -> string -> HTMLElement -> HTMLElement;
  getCodeForKeyCode : KeyCode -> Z;
  InputBox_new : HTMLElement -> IContextViewProvider -> InputType -> InputBox;
  InputBox_on_element : (HTMLElement -> HTMLElement) -> InputBox -> InputBox;
  InputBox_focus : InputBox -> InputBox;
  InputBox_dispose : InputBox -> InputBox;
  InputBox_value : InputBox -> string;
  InputBox_set_value : string -> InputBox -> InputBox;
  SelectBox_new : list string -> IContextViewProvider -> SelectBox;
  SelectBox_render : HTMLElement -> SelectBox -> SelectBox;
  SelectBox_on_selectElem : (HTMLElement -> HTMLElement) -> SelectBox -> SelectBox;
  SelectBox_focus : SelectBox -> SelectBox;
  SelectBox_dispose : SelectBox -> SelectBox;
  SelectBox_value : SelectBox -> string;
  SelectBox_setOptions : list string -> SelectBox -> SelectBox;
  SelectBox_select : nat -> SelectBox -> SelectBox;
  Dropdown_new : HTMLElement -> IContextViewProvider -> Dropdown;
  (** a change of the element the dropdown was built on *)
  Dropdown_on_container : (HTMLElement -> HTMLElement) -> Dropdown -> Dropdown;
  Dropdown_focus : Dropdown -> Dropdown;
  Dropdown_dispose : Dropdown -> Dropdown;
  Dropdown_value : Dropdown -> string;
  Dropdown_set_value : string -> Dropdown -> Dropdown;
  Dropdown_set_values : list string -> Dropdown -> Dropdown
}.

Section Factory.
Context `{Toolkit}.
(** The type of the [context] the factory's callers pass around. *)
Context {Ctx : Type}.

(** [Slick.Editors.EditorOptions], as far as the editors read it. *)
Record EditorOptions := {
  container : HTMLElement;
  column : Column;
  grid : Grid
}.

(** [ITableCellEditorOptions].  A getter may yield [null] or
    [undefined] ([None]); the setter is given the row and yields it as
    the call leaves it; the styler acts on the widget it is given. *)
Record ITableCellEditorOptions := {
  valueGetter : option (SlickData -> Column -> option string);
  valueSetter : option (Ctx -> nat -> SlickData -> Column -> string -> SlickData);
  optionsGetter : option (SlickData -> Column -> option (list string));
  style_InputBox : InputBox -> InputBox;
  style_SelectBox : SelectBox -> SelectBox;
  style_Dropdown : Dropdown -> Dropdown
}.

(** The factory: its options with the defaults filled in by the
    constructor, and the context view provider. *)
Record TableCellEditorFactory := {
  _valueGetter : SlickData -> Column -> option string;
  _valueSetter : Ctx -> nat -> SlickData -> Column -> string -> SlickData;
  _optionsGetter : SlickData -> Column -> option (list string);
  _style_InputBox : InputBox -> InputBox;
  _style_SelectBox : SelectBox -> SelectBox;
  _style_Dropdown : Dropdown -> Dropdown;
  _contextViewProvider : IContextViewProvider
}.

Definition new_TableCellEditorFactory (options : ITableCellEditorOptions)
    (contextViewProvider : IContextViewProvider) : TableCellEditorFactory :=
  {| _valueGetter :=
       default (fun item column => item !! field column) (valueGetter options);
     _valueSetter :=
       default (fun _ _ item column value => <[field column := value]> item)
         (valueSetter options);
     _optionsGetter := default (fun _ _ => Some []) (optionsGetter options);
     _style_InputBox := style_InputBox options;
     _style_SelectBox := style_SelectBox options;
     _style_Dropdown := style_Dropdown options;
     _contextViewProvider := contextViewProvider |}.

Definition keycodesToCapture : list KeyCode :=
  [Home; End_; UpArrow; DownArrow; LeftArrow; RightArrow].

End Factory.

(** [list.indexOf(x)]; [None] stands for [-1]. *)
Fixpoint indexOf (x : string) (l : list string) : option nat :=
  match l with
  | [] => None
  | y :: l' => if String.eqb y x then Some 0%nat else S <$> indexOf x l'
  end.

(** *** The class returned by [getTextEditorClass] *)

Module TextEditor.
Section Class.
Context `{Toolkit} {Ctx : Type}.
Variable self : TableCellEditorFactory (Ctx := Ctx).
Variable context : Ctx.
Variable inputType : InputType.

(** An instance.  [_originalValue] is [undefined] ([None]) until a
    value is loaded. *)
Record t := {
  _args : EditorOptions;
  _originalValue : option string;
  _input : InputBox;
  _keyCaptureList : list Z
}.

Definition init_input (args : EditorOptions) : InputBox :=
  let input := InputBox_new (container args) (_contextViewProvider self) inputType in
  let input := _style_InputBox self input in
  let input := InputBox_on_element (set_style "height" "100%") input in
  InputBox_focus input.

(** [init] builds the input box anew. *)
Definition init (e : t) : t :=
  {| _args := _args e;
     _originalValue := _originalValue e;
     _input := init_input (_args e);
     _keyCaptureList := _keyCaptureList e |}.

(** [new TextEditor(args)]. *)
Definition new (args : EditorOptions) : t :=
  {| _args := args;
     _originalValue := None;
     _input := init_input args;
     _keyCaptureList := map getCodeForKeyCode keycodesToCapture |}.

Definition keyCaptureList (e : t) : list Z := _keyCaptureList e.

Definition with_input (input : InputBox) (e : t) : t :=
  {| _args := _args e;
     _originalValue := _originalValue e;
     _input := input;
     _keyCaptureList := _keyCaptureList e |}.

Definition destroy (e : t) : t := with_input (InputBox_dispose (_input e)) e.

Definition focus (e : t) : t := with_input (InputBox_focus (_input e)) e.

Definition loadValue (item : SlickData) (e : t) : t :=
  let originalValue := default "" (_valueGetter self item (column (_args e))) in
  {| _args := _args e;
     _originalValue := Some originalValue;
     _input := InputBox_set_value originalValue (_input e);
     _keyCaptureList := _keyCaptureList e |}.

(** [applyValue] hands the value to the setter; the row is what the
    setter leaves. *)
Definition applyValue (item : SlickData) (state : string) (e : t) : SlickData :=
  let activeCell := getActiveCell (grid (_args e)) in
  _valueSetter self context (row activeCell) item (column (_args e)) state.

(** [isValueChanged]; it throws ([None]) when no value was loaded, as
    [_originalValue] is then [undefined]. *)
Definition isValueChanged (e : t) : option bool :=
  originalValue ← _originalValue e;
  Some (negb (String.eqb (InputBox_value (_input e)) originalValue)).

Definition serializeValue (e : t) : string := InputBox_value (_input e).

Definition validate (e : t) : ValidateResults :=
  {| valid := true; msg := None |}.

(** What the user does to an editor: type in the input box. *)
Definition type_in (value : string) (e : t) : t :=
  with_input (InputBox_set_value value (_input e)) e.

End Class.
End TextEditor.

(** *** The class returned by [getDropdownEditorClass] *)

Module DropdownEditor.
Section Class.
Context `{Toolkit} {Ctx : Type}.
Variable self : TableCellEditorFactory (Ctx := Ctx).
Variable context : Ctx.
Variable defaultOptions : option (list string).
Variable isEditable : bool.

(** An instance: of the two widgets, [init] builds the one that
    [isEditable] selects; the other stays [undefined]. *)
Record t := {
  _args : EditorOptions;
  _originalValue : option string;
  _selectBox : option SelectBox;
  _dropdown : option Dropdown;
  _keyCaptureList : list Z
}.

Definition size_to_cell (element : HTMLElement) : HTMLElement :=
  set_style "width" "100%" (set_style "height" "100%" element).

Definition init_widgets (args : EditorOptions)
  : EditorOptions * option SelectBox * option Dropdown :=
  let container' := DOM_create "" in
  let args' :=
    {| container := appendChild (container args) container';
       column := column args;
       grid := grid args |} in
  if isEditable
  then
    let dropdown := Dropdown_new container' (_contextViewProvider self) in
    let dropdown := Dropdown_on_container size_to_cell dropdown in
    let dropdown := _style_Dropdown self dropdown in
    (args', None, Some (Dropdown_focus dropdown))
  else
    let selectBox := SelectBox_new [] (_contextViewProvider self) in
    let selectBox := SelectBox_render (size_to_cell container') selectBox in
    let selectBox := SelectBox_on_selectElem (set_style "height" "100%") selectBox in
    let selectBox := _style_SelectBox self selectBox in
    (args', Some (SelectBox_focus selectBox), None).

(** [new TextEditor(args)]. *)
Definition new (args : EditorOptions) : t :=
  let '(args', selectBox, dropdown) := init_widgets args in
  {| _args := args';
     _originalValue := None;
     _selectBox := selectBox;
     _dropdown := dropdown;
     _keyCaptureList := map getCodeForKeyCode keycodesToCapture |}.

Definition keyCaptureList (e : t) : list Z := _keyCaptureList e.

Definition with_widgets (selectBox : option SelectBox) (dropdown : option Dropdown)
    (e : t) : t :=
  {| _args := _args e;
     _originalValue := _originalValue e;
     _selectBox := selectBox;
     _dropdown := dropdown;
     _keyCaptureList := _keyCaptureList e |}.

Definition destroy (e : t) : t :=
  if isEditable
  then with_widgets (_selectBox e) (Dropdown_dispose <$> _dropdown e) e
  else with_widgets (SelectBox_dispose <$> _selectBox e) (_dropdown e) e.

Definition focus (e : t) : t :=
  if isEditable
  then with_widgets (_selectBox e) (Dropdown_focus <$> _dropdown e) e
  else with_widgets (SelectBox_focus <$> _selectBox e) (_dropdown e) e.

(** [loadValue] shows the row's value only when it is one of the
    options. *)
Definition loadValue (item : SlickData) (e : t) : t :=
  let originalValue := default "" (_valueGetter self item (column (_args e))) in
  let options :=
    match _optionsGetter self item (column (_args e)) with
    | Some options => Some options
    | None => defaultOptions
    end in
  let e' :=
    {| _args := _args e;
       _originalValue := Some originalValue;
       _selectBox := _selectBox e;
       _dropdown := _dropdown e;
       _keyCaptureList := _keyCaptureList e |} in
  match options with
  | Some options =>
      match indexOf originalValue options with
      | Some idx =>
          if isEditable
          then
            with_widgets (_selectBox e)
              ((fun d => Dropdown_set_value (default "" (options !! idx))
                           (Dropdown_set_values options d)) <$> _dropdown e) e'
          else
            with_widgets
              ((fun b => SelectBox_select idx (SelectBox_setOptions options b))
                 <$> _selectBox e)
              (_dropdown e) e'
      | None => e'
      end
  | None => e'
  end.

Definition applyValue (item : SlickData) (state : string) (e : t) : SlickData :=
  let activeCell := getActiveCell (grid (_args e)) in
  _valueSetter self context (row activeCell) item (column (_args e)) state.

(** The value of the widget in use; [None] when it is [undefined]. *)
Definition widget_value (e : t) : option string :=
  if isEditable
  then Dropdown_value <$> _dropdown e
  else SelectBox_value <$> _selectBox e.

Definition isValueChanged (e : t) : option bool :=
  value ← widget_value e;
  originalValue ← _originalValue e;
  Some (negb (String.eqb value originalValue)).

Definition serializeValue (e : t) : option string := widget_value e.

Definition validate (e : t) : ValidateResults :=
  {| valid := true; msg := None |}.

(** [init] builds the widget anew. *)
Definition init (e : t) : t :=
  let '(args', selectBox, dropdown) := init_widgets (_args e) in
  {| _args := args';
     _originalValue := _originalValue e;
     _selectBox := if isEditable then _selectBox e else selectBox;
     _dropdown := if isEditable then dropdown else _dropdown e;
     _keyCaptureList := _keyCaptureList e |}.

End Class.
End DropdownEditor.

End TableCellEditor.

(** ** An in-memory world

    Services to run the script on: a file system, a blob store and a
    document store held in memory, with connection resets and replace
    conflicts that can be scheduled. *)

Module InMemory.

Record World := {
  files : gmap string (Z * list string);
  blobs : list (string * string);
  documents : list (string * Release.t);
  (** database calls that will still fail with a connection reset *)
  resets : nat;
  (** replacements that will still fail with a conflict *)
  conflicts : nat;
  clock : Z
}.

Definition ENOENT : Js.Error :=
  {| Js.message := Some "ENOENT: no such file or directory";
     Js.code := Some (Js.Str "ENOENT") |}.

Definition ECONNRESET : Js.Error :=
  {| Js.message := Some "read ECONNRESET";
     Js.code := Some (Js.Str "ECONNRESET") |}.

(** The database's answer to a write that conflicts; it has no
    [message]. *)
Definition conflict : Js.Error :=
  {| Js.message := None; Js.code := Some (Js.Num 409) |}.

Definition with_blobs (blobs' : list (string * string)) (w : World) : World :=
  {| files := files w; blobs := blobs'; documents := documents w;
     resets := resets w; conflicts := conflicts w; clock := clock w |}.

Definition with_documents (documents' : list (string * Release.t)) (w : World)
  : World :=
  {| files := files w; blobs := blobs w; documents := documents';
     resets := resets w; conflicts := conflicts w; clock := clock w |}.

Definition with_resets (n : nat) (w : World) : World :=
  {| files := files w; blobs := blobs w; documents := documents w;
     resets := n; conflicts := conflicts w; clock := clock w |}.

Definition with_conflicts (n : nat) (w : World) : World :=
  {| files := files w; blobs := blobs w; documents := documents w;
     resets := resets w; conflicts := n; clock := clock w |}.

(** A database call: it fails while connection resets are scheduled. *)
Definition over_network {R} (failed : Js.Error -> R) (answer : World -> R * World)
    (w : World) : R * World :=
  match resets w with
  | S n => (failed ECONNRESET, with_resets n w)
  | O => answer w
  end.

Definition stored (collection id : string) (entry : string * Release.t) : bool :=
  String.eqb entry.1 collection && String.eqb (Release.id entry.2) id.

Definition link_of (collection id : string) : string :=
  collection +:+ "/docs/" +:+ id.

Definition services : Services World := {|
  fs_stat file w :=
    (match files w !! file with
     | Some (size, _) => Ok size
     | None => Err ENOENT
     end, w);
  fs_createReadStream file w :=
    (match files w !! file with
     | Some (_, chunks) => Closed chunks
     | None => Errored [] ENOENT
     end, w);
  blob_createContainerIfNotExists _ w := (None, w);
  blob_doesBlobExist container blob w :=
    (Ok (bool_decide ((container, blob) ∈ blobs w)), w);
  blob_createBlockBlobFromLocalFile container blob _ _ w :=
    (None, with_blobs ((container, blob) :: blobs w) w);
  db_queryConfig _ _ := over_network Err (fun w => (Ok [], w));
  db_queryDocuments collection id :=
    over_network Err (fun w =>
      (Ok (snd <$> List.filter (stored collection id) (documents w)), w));
  db_createDocument collection doc :=
    over_network Some (fun w =>
      if existsb (stored collection (Release.id doc)) (documents w)
      then (Some conflict, w)
      else
        let doc :=
          Release.mk (Release.id doc) (Release.timestamp doc) (Release.version doc)
            (Release.isReleased doc) (Release.sourceBranch doc)
            (Release.queuedBy doc) (Release.assets doc) (Release.updates doc)
            (Some (link_of collection (Release.id doc))) in
        (None, with_documents (documents w ++ [(collection, doc)]) w));
  db_replaceDocument link doc :=
    over_network Some (fun w =>
      match conflicts w with
      | S n => (Some conflict, with_conflicts n w)
      | O =>
          (None,
           with_documents
             ((fun entry =>
                 if bool_decide (Release._self entry.2 = link)
                 then (entry.1, doc) else entry) <$> documents w) w)
      end);
  Date_now w := clock w
|}.

(** [minimist] on a command line without options but [--upload-only]. *)
Definition modules : Modules := {|
  minimist args :=
    {| positional := List.filter (fun a => negb (String.eqb a "--upload-only")) args;
       upload_only := existsb (String.eqb "--upload-only") args |};
  mime_lookup _ := "application/octet-stream";
  crypto_digest hashName chunks := hashName +:+ ":" +:+ String.concat "" chunks
|}.

Definition empty : World := {|
  files := {[ "/build/product.zip" := (1024%Z, ["PK"; "data"]) ]};
  blobs := [];
  documents := [];
  resets := 0;
  conflicts := 0;
  clock := 1600000000000%Z
|}.

Definition command_line (upload_only : bool) : list string :=
  ["node"; "publish.js"; "insider"; "win32-x64"; "archive"; "product.zip";
   "1.25.0"; "true"; "/build/product.zip"]
  ++ (if upload_only then ["--upload-only"] else []).

Definition process (upload_only : bool) : Process := {|
  argv := command_line upload_only;
  env := {[ "BUILD_SOURCEVERSION" := "c0ffee";
            "BUILD_SOURCEBRANCH" := "refs/heads/main";
            "BUILD_QUEUEDBY" := "Project Collection Service Accounts";
            "AZURE_CDN_URL" := "https://cdn.example" ]}
|}.

Definition start (w : World) : Async.State World := Async.mkState w 0.

(** The world after a first build of the commit was published. *)
Definition published : World :=
  Async.world (Publish.script services modules (process false) (start empty)).1.2.

(** The asset and the release of a second file of the same build. *)
Definition setup : Asset.t := {|
  Asset.platform := "win32-x64";
  Asset.type := "setup";
  Asset.url := "https://cdn.example/insider/c0ffee/setup.exe";
  Asset.hash := "sha1:MZ";
  Asset.sha256hash := "sha256:MZ";
  Asset.size := 2048%Z;
  Asset.supportsFastUpdate := Some true
|}.

Definition setup_release : Release.t := {|
  Release.id := "c0ffee";
  Release.timestamp := 1600000000001%Z;
  Release.version := "1.25.0";
  Release.isReleased := true;
  Release.sourceBranch := Some "refs/heads/main";
  Release.queuedBy := Some "Project Collection Service Accounts";
  Release.assets := [setup];
  Release.updates := ∅;
  Release._self := None
|}.

(** [createOrUpdate] for that second file. *)
Definition record_setup : Async.M World unit :=
  Publish.createOrUpdate services "c0ffee" "insider" "win32-x64" "setup"
    setup_release setup false.

Definition command (p : Process) : Argv := minimist modules (drop 2 (argv p)).

(** The first publication of the build, with or without
    [--upload-only]. *)
Definition first_publish (upload_only : bool)
  : Outcome unit * Async.State World * list Event :=
  Publish.publish services modules (process upload_only) "c0ffee" "insider"
    "win32-x64" "archive" "product.zip" "1.25.0" "true" "/build/product.zip"
    (command (process upload_only)) (start empty).

(** The same publication, run again after the first. *)
Definition second_publish : Outcome unit * Async.State World * list Event :=
  Publish.publish services modules (process false) "c0ffee" "insider"
    "win32-x64" "archive" "product.zip" "1.25.0" "true" "/build/product.zip"
    (command (process false)) (start published).


(** The asset these publications build. *)
Definition archive : Asset.t := {|
  Asset.platform := "win32-x64";
  Asset.type := "archive";
  Asset.url := "https://cdn.example/insider/c0ffee/product.zip";
  Asset.hash := "sha1:PKdata";
  Asset.sha256hash := "sha256:PKdata";
  Asset.size := 1024%Z;
  Asset.supportsFastUpdate := Some true
|}.

(** The document the first publication stored. *)
Definition stored_release : Release.t :=
  default setup_release (snd <$> head (documents published)).



(** A command line of nine words that lacks the file. *)
Definition process_without_file : Process := {|
  argv := ["node"; "publish.js"; "insider"; "win32-x64"; "archive"; "product.zip";
           "1.25.0"; "true"; "--upload-only"];
  env := env (process false)
|}.

Definition process_without_commit : Process := {|
  argv := command_line false;
  env := delete "BUILD_SOURCEVERSION" (env (process false))
|}.

Definition short_process : Process := {|
  argv := ["node"; "publish.js"; "insider"];
  env := env (process false)
|}.

(** A function to retry, on a world that counts its calls: the answer
    to a call depends on how many were made before; each call is
    recorded with that number. *)
Definition counting (answer : nat -> Outcome nat) : Async.M nat nat :=
  fun s =>
    let n := Async.world s in
    (answer n, Async.mkState (S n) (Async.updateTries s),
     [FsStat "call" (Ok (Z.of_nat n))]).

End InMemory.

(** ** A toolkit of plain values

    Widgets reduced to the values they hold, to run the editors on. *)

Module Plain.
Import TableCellEditor.

Record Select := {
  options : list string;
  selected : nat
}.

#[export] Instance toolkit : Toolkit := {|
  HTMLElement := list (string * string);
  IContextViewProvider := unit;
  InputBox := string;
  SelectBox := Select;
  Dropdown := string;
  DOM_create _ := [];
  appendChild parent _ := parent;
  set_style property value element := (property, value) :: element;
  getCodeForKeyCode key :=
    match key with
    | Home => 36%Z
    | End_ => 35%Z
    | UpArrow => 38%Z
    | DownArrow => 40%Z
    | LeftArrow => 37%Z
    | RightArrow => 39%Z
    end;
  InputBox_new _ _ _ := "";
  InputBox_on_element _ input := input;
  InputBox_focus input := input;
  InputBox_dispose input := input;
  InputBox_value input := input;
  InputBox_set_value value _ := value;
  SelectBox_new options _ := {| options := options; selected := 0 |};
  SelectBox_render _ box := box;
  SelectBox_on_selectElem _ box := box;
  SelectBox_focus box := box;
  SelectBox_dispose box := box;
  SelectBox_value box := default "" (options box !! selected box);
  SelectBox_setOptions options box := {| options := options; selected := selected box |};
  SelectBox_select index box := {| options := options box; selected := index |};
  Dropdown_new _ _ := "";
  Dropdown_on_container _ dropdown := dropdown;
  Dropdown_focus dropdown := dropdown;
  Dropdown_dispose dropdown := dropdown;
  Dropdown_value dropdown := dropdown;
  Dropdown_set_value value _ := value;
  Dropdown_set_values _ dropdown := dropdown
|}.

(** A factory with the default getters and setter. *)
Definition factory : TableCellEditorFactory (Ctx := unit) :=
  new_TableCellEditorFactory
    {| valueGetter := None; valueSetter := None; optionsGetter := None;
       style_InputBox := id; style_SelectBox := id; style_Dropdown := id |}
    tt.

Definition args : EditorOptions := {|
  container := [];
  column := {| field := "name" |};
  grid := {| getActiveCell := {| row := 2; cell := 1 |} |}
|}.

Definition item : SlickData := {[ "name" := "orders"; "schema" := "dbo" ]}.

End Plain.

(** ** Vocabulary of the statements *)

Module Spec.
Import Async.

(** The invariant of a release document: at most one asset for each
    pair of a platform and a type. *)
Definition one_asset_per_pair (assets : list Asset.t) : Prop :=
  NoDup (Asset.key <$> assets).

(** The assets of a list that are for a given platform and type. *)
Definition assets_for (platform type : string) (assets : list Asset.t)
  : list Asset.t :=
  List.filter
    (fun a => String.eqb (Asset.platform a) platform
              && String.eqb (Asset.type a) type)
    assets.

(** [/ECONNRESET/.test(err.message)]. *)
Definition is_connection_reset (err : Js.Error) : bool :=
  Js.test (Js.literal "ECONNRESET") (Js.String_ (Js.message err)).

(** [k] runs of [fn] in a row, numbered from [run], that each fail with
    a connection reset: the state the last one leaves and the calls
    made, with what [retry] logs after each.  [None] when one of the
    [k] runs ends otherwise. *)
Fixpoint reset_runs {World A} (fn : M World A) (k run : nat) (s : State World)
  : option (State World * list Event) :=
  match k with
  | O => Some (s, [])
  | S k' =>
      match fn s with
      | (Rejected err, s1, t1) =>
          if is_connection_reset err
          then
            '(s2, t2) ← reset_runs fn k' (S run) s1;
            Some (s2, t1 ++ ConsoleLog (Publish.caught err run) :: t2)
          else None
      | _ => None
      end
  end.

(** Kinds of calls. *)
Definition is_console (ev : Event) : bool :=
  match ev with
  | ConsoleLog _ | ConsoleWarn _ | ConsoleError _ => true
  | _ => false
  end.

Definition is_upload (ev : Event) : bool :=
  match ev with
  | CreateBlockBlobFromLocalFile _ _ _ _ _ => true
  | _ => false
  end.

Definition is_config_query (ev : Event) : bool :=
  match ev with
  | QueryConfig _ _ _ => true
  | _ => false
  end.

(** A call to the collection of release documents. *)
Definition is_document_call (ev : Event) : bool :=
  match ev with
  | QueryDocuments _ _ _ | CreateDocument _ _ _ | ReplaceDocument _ _ _ => true
  | _ => false
  end.

(** A call that creates or replaces a release document. *)
Definition is_document_write (ev : Event) : bool :=
  match ev with
  | CreateDocument _ _ _ | ReplaceDocument _ _ _ => true
  | _ => false
  end.

(** The calls of a run to the world outside: all but the console's. *)
Definition service_calls (t : list Event) : list Event :=
  List.filter (fun ev => negb (is_console ev)) t.

(** Every call a computation makes satisfies [P], whatever the state it
    runs from. *)
Definition emits {World A} (P : Event -> Prop) (m : M World A) : Prop :=
  forall s, Forall P (trace (m s)).

(** The calls [getConfig] may make. *)
Definition config_call (quality : string) (ev : Event) : Prop :=
  is_console ev = true
  \/ exists reply, ev = QueryConfig "dbs/builds/colls/config" quality reply.

(** The calls [createOrUpdate] may make: it creates the release it was
    given, queries the documents of the commit, and replaces a document
    it found by its update. *)
Definition document_call (commit quality platform type : string)
    (release : Release.t) (asset : Asset.t) (isUpdate : bool) (ev : Event) : Prop :=
  is_console ev = true
  \/ (exists err, ev = CreateDocument (Publish.collection quality) release err)
  \/ (exists reply, ev = QueryDocuments (Publish.collection quality) commit reply)
  \/ (exists found err,
        let doc := Publish.updated_release platform type asset isUpdate found in
        ev = ReplaceDocument (Release._self doc) doc err).

(** An answer to the query of the configuration that [getConfig] takes
    for one: documents, or a conflict. *)
Definition config_accepted (ev : Event) : Prop :=
  exists collection quality reply,
    ev = QueryConfig collection quality reply
    /\ match reply with
       | Ok _ => True
       | Err err => Js.code_is 409 err = true
       end.

Definition is_create (ev : Event) : Prop :=
  exists collection doc err, ev = CreateDocument collection doc err.

(** The order of the calls of a run of [publish] that goes as far as
    the release documents: the file is measured and read to its end, the
    container asserted, the blob found missing and uploaded, all without
    an error; then the configuration is queried, until an answer is
    accepted; then come the calls to the release documents, of which the
    first creates one. *)
Definition in_publish_order (quality blobName file : string)
    (options : BlobOptions) (calls : list Event) : Prop :=
  exists size chunks configs docs,
    calls
    = [FsStat file (Ok size);
       FsReadStream file (Closed chunks);
       CreateContainerIfNotExists quality None;
       DoesBlobExist quality blobName (Ok false);
       CreateBlockBlobFromLocalFile quality blobName file options None]
      ++ configs ++ docs
    /\ Forall (fun ev => is_config_query ev = true) configs
    /\ (exists ev, last configs = Some ev /\ config_accepted ev)
    /\ Forall (fun ev => is_document_call ev = true) docs
    /\ (exists ev, head docs = Some ev /\ is_create ev).



Definition is_replace (ev : Event) : bool :=
  match ev with
  | ReplaceDocument _ _ _ => true
  | _ => false
  end.


End Spec.

(** ** Vocabulary of the further statements *)

Module Observations.
Import Async.

(** How many calls of a kind a run made. *)
Definition count (kind : Event -> bool) (t : list Event) : nat :=
  length (List.filter kind t).

Definition is_create_call (ev : Event) : bool :=
  match ev with
  | CreateDocument _ _ _ => true
  | _ => false
  end.

Definition is_documents_query (ev : Event) : bool :=
  match ev with
  | QueryDocuments _ _ _ => true
  | _ => false
  end.

(** A creation or a replacement of a document that the database
    accepted. *)
Definition accepted_write (ev : Event) : bool :=
  match ev with
  | CreateDocument _ _ None | ReplaceDocument _ _ None => true
  | _ => false
  end.

(** The error of a call of [publish] that comes before the queries of
    the configuration, when the call failed. *)
Definition early_failure (ev : Event) : option Js.Error :=
  match ev with
  | FsStat _ (Err err) => Some err
  | FsReadStream _ (Errored _ err) => Some err
  | CreateContainerIfNotExists _ (Some err) => Some err
  | DoesBlobExist _ _ (Err err) => Some err
  | CreateBlockBlobFromLocalFile _ _ _ _ (Some err) => Some err
  | _ => None
  end.


(** The asset a document records once [publish] has written it: the
    only asset of a document created without [--upload-only], the last
    asset of a document replaced. *)
Definition recorded_asset (opts : Argv) (ev : Event) : option Asset.t :=
  match ev with
  | CreateDocument _ doc _ =>
      if upload_only opts then None else head (Release.assets doc)
  | ReplaceDocument _ doc _ => last (Release.assets doc)
  | _ => None
  end.

End Observations.

(** ** Sessions of a text editor

    What the grid and the user do to a text editor once it is built, in
    the order they do it. *)

Module Session.
Import TableCellEditor.

Variant Action :=
| Init
| Focus
| Destroy
| Load (item : SlickData)
| TypeIn (value : string).

Section Run.
Context `{Toolkit} {Ctx : Type}.
Variable self : TableCellEditorFactory (Ctx := Ctx).
Variable inputType : InputType.

Definition step (e : TextEditor.t) (action : Action) : TextEditor.t :=
  match action with
  | Init => TextEditor.init self inputType e
  | Focus => TextEditor.focus e
  | Destroy => TextEditor.destroy e
  | Load item => TextEditor.loadValue self item e
  | TypeIn value => TextEditor.type_in value e
  end.

Definition run (actions : list Action) (e : TextEditor.t) : TextEditor.t :=
  fold_left step actions e.

(** The value that the last [Load] of a session loaded for a column,
    if the session has one. *)
Definition last_loaded (column : Column) (actions : list Action) : option string :=
  fold_left
    (fun loaded action =>
       match action with
       | Load item => Some (default "" (_valueGetter self item column))
       | _ => loaded
       end)
    actions None.

End Run.
End Session.

(** ** More worlds and rows to run on *)

Module Fixtures.
Import InMemory.

(** A world without the file. *)
Definition without_file : World := {|
  files := ∅; blobs := []; documents := []; resets := 0; conflicts := 0;
  clock := clock empty
|}.

(** The document a first publication creates without [--upload-only]. *)
Definition created_with_asset : Release.t :=
  Publish.new_release (process false) "c0ffee" "insider" "win32-x64" "archive"
    "1.25.0" true (command (process false)) archive (clock empty).

(** A database that answers every creation and every replacement with
    a conflict, finds the document of the commit four times, and resets
    the connection at every later query.  Its world is the number of
    queries of documents it has answered. *)
Definition stubborn : Services nat := {|
  fs_stat _ n := (Ok 0%Z, n);
  fs_createReadStream _ n := (Closed [], n);
  blob_createContainerIfNotExists _ n := (None, n);
  blob_doesBlobExist _ _ n := (Ok false, n);
  blob_createBlockBlobFromLocalFile _ _ _ _ n := (None, n);
  db_queryConfig _ _ n := (Ok [], n);
  db_queryDocuments _ _ n :=
    (if (n <? 4)%nat then Ok [stored_release] else Err ECONNRESET, S n);
  db_createDocument _ _ n := (Some conflict, n);
  db_replaceDocument _ _ n := (Some conflict, n);
  Date_now _ := 0%Z
|}.

(** A factory whose rows have two options. *)
Definition factory_with_options
  : TableCellEditor.TableCellEditorFactory (H := Plain.toolkit) (Ctx := unit) :=
  TableCellEditor.new_TableCellEditorFactory (H := Plain.toolkit)
    {| TableCellEditor.valueGetter := None;
       TableCellEditor.valueSetter := None;
       TableCellEditor.optionsGetter := Some (fun _ _ => Some ["invoices"; "orders"]);
       TableCellEditor.style_InputBox := id;
       TableCellEditor.style_SelectBox := id;
       TableCellEditor.style_Dropdown := id |}
    tt.

End Fixtures.

(** * Properties *)

Import Async Publish Spec.
Local Open Scope async_scope.

(** ** The asset list of a release document *)

Section AssetList.

Lemma fmap_key_filter_subset (keep : Asset.t -> bool) (assets : list Asset.t) k :
  k ∈ Asset.key <$> List.filter keep assets -> k ∈ Asset.key <$> assets.
Proof.
  induction assets as [|a assets IH]; simpl; [done|].
  destruct (keep a); simpl; rewrite ?elem_of_cons; intuition.
Qed.

Lemma NoDup_fmap_key_filter (keep : Asset.t -> bool) (assets : list Asset.t) :
  NoDup (Asset.key <$> assets) -> NoDup (Asset.key <$> List.filter keep assets).
Proof.
  induction assets as [|a assets IH]; simpl; [done|].
  rewrite NoDup_cons. intros [Hnotin Hnodup].
  destruct (keep a); simpl; [|auto].
  apply NoDup_cons. split; [|auto].
  intros Hin. apply Hnotin. eapply fmap_key_filter_subset, Hin.
Qed.

Lemma same_pair_spec (platform type : string) (a : Asset.t) :
  String.eqb (Asset.platform a) platform && String.eqb (Asset.type a) type = true
  <-> Asset.key a = (platform, type).
Proof.
  unfold Asset.key. rewrite andb_true_iff, !String.eqb_eq.
  split; [intros [-> ->]; done|]. intros [= -> ->]. done.
Qed.

(** No asset of the published pair survives the filter of [update]. *)
Lemma filtered_has_no_pair (platform type : string) (assets : list Asset.t) :
  (platform, type) ∉
    Asset.key <$>
      List.filter
        (fun a => negb (String.eqb (Asset.platform a) platform
                        && String.eqb (Asset.type a) type))
        assets.
Proof.
  induction assets as [|a assets IH]; simpl; [apply not_elem_of_nil|].
  destruct (String.eqb (Asset.platform a) platform && String.eqb (Asset.type a) type)
    eqn:Hsame; simpl; [done|].
  rewrite not_elem_of_cons. split; [|done].
  intros Hkey. symmetry in Hkey. apply same_pair_spec in Hkey. congruence.
Qed.

Lemma assets_for_filtered (platform type : string) (assets : list Asset.t) :
  assets_for platform type
    (List.filter
       (fun a => negb (String.eqb (Asset.platform a) platform
                       && String.eqb (Asset.type a) type))
       assets) = [].
Proof.
  unfold assets_for.
  induction assets as [|a assets IH]; simpl; [done|].
  destruct (String.eqb (Asset.platform a) platform && String.eqb (Asset.type a) type)
    eqn:Hsame; simpl; [done|].
  rewrite Hsame. done.
Qed.

Lemma updated_release_assets platform type asset isUpdate found :
  Release.assets (updated_release platform type asset isUpdate found)
  = updated_assets platform type asset (Release.assets found).
Proof. unfold updated_release. destruct isUpdate; reflexivity. Qed.

(** C2. The rewrite of the asset list in [update] keeps the invariant
    of a release document: if the document found has at most one asset
    for each pair of a platform and a type, then the document that
    replaces it has exactly one asset for the published pair, the
    published asset, and still at most one for each pair. *)
Theorem update_keeps_one_asset_per_pair
    (asset : Asset.t) (isUpdate : bool) (found : Release.t) :
  one_asset_per_pair (Release.assets found) ->
  let platform := Asset.platform asset in
  let type := Asset.type asset in
  let release := updated_release platform type asset isUpdate found in
  assets_for platform type (Release.assets release) = [asset]
  /\ one_asset_per_pair (Release.assets release).
Proof.
  intros Hinv platform type release. subst release.
  rewrite updated_release_assets. unfold updated_assets. split.
  - unfold assets_for. rewrite List.filter_app.
    fold (assets_for platform type
            (List.filter
               (fun a => negb (String.eqb (Asset.platform a) platform
                               && String.eqb (Asset.type a) type))
               (Release.assets found))).
    rewrite assets_for_filtered. simpl.
    subst platform type. rewrite !String.eqb_refl. done.
  - unfold one_asset_per_pair in *. rewrite fmap_app. apply NoDup_app.
    split; [by apply NoDup_fmap_key_filter|]. split.
    + intros k Hk Hin. apply list_elem_of_singleton in Hin. subst k.
      by apply filtered_has_no_pair in Hk.
    + apply NoDup_singleton.
Qed.

End AssetList.

(** ** The retry loop *)

Section Retry.
Context {World : Type}.

Lemma retry_from_O {A} (fn : M World A) (run : nat) :
  retry_from O run fn = throw (Js.new_Error "Retried too many times").
Proof. reflexivity. Qed.

Lemma retry_from_S {A} (fn : M World A) (remaining run : nat) :
  retry_from (S remaining) run fn
  = try_catch fn (fun err =>
      if negb (is_connection_reset err) then throw err
      else log (caught err run) ;; retry_from remaining (S run) fn).
Proof. reflexivity. Qed.

(** After [k] runs that fail with a connection reset, [retry] goes on
    with the runs that are left. *)
Lemma retry_from_reset_runs {A} (fn : M World A) (k : nat) :
  forall (remaining run : nat) (s s' : State World) (t : list Event),
    reset_runs fn k run s = Some (s', t) ->
    retry_from (k + remaining) run fn s
    = let '(r, s2, t2) := retry_from remaining (k + run) fn s' in (r, s2, t ++ t2).
Proof.
  induction k as [|k IH]; intros remaining run s s' t Hruns.
  - cbn [reset_runs] in Hruns. injection Hruns as <- <-.
    rewrite !Nat.add_0_l. by destruct (retry_from _ _ _ _) as [[r s2] t2].
  - cbn [reset_runs] in Hruns.
    replace (S k + remaining)%nat with (S (k + remaining)) by lia.
    rewrite retry_from_S. unfold try_catch.
    destruct (fn s) as [[[a|err|] s1] t1]; try discriminate.
    destruct (is_connection_reset err); [|discriminate].
    destruct (reset_runs fn k (S run) s1) as [[s2 t2]|] eqn:Hrest; [|discriminate].
    cbn in Hruns. injection Hruns as <- <-.
    cbn [negb]. unfold bind, log, emit.
    rewrite (IH remaining (S run) s1 s2 t2 Hrest).
    replace (k + S run)%nat with (S k + run)%nat by lia.
    destruct (retry_from remaining _ fn s2) as [[r s3] t3].
    by rewrite <- !app_assoc.
Qed.

(** C3. [retry] around any function [fn].  Let the first [k] runs of
    [fn] each fail with a connection reset.  If [k] is below ten and
    the next run fails with an error whose message does not contain
    ECONNRESET, [retry] fails with that error, and nothing is run after
    it.  If [k] is below ten and the next run succeeds, [retry] returns
    its result, and nothing is run after it.  If [k] is ten, [retry]
    fails with the error "Retried too many times" after these ten
    runs, and [fn] is not run an eleventh time. *)
Theorem retry_rethrows_returns_or_gives_up {A} (fn : M World A) (k : nat)
    (s s' : State World) (t : list Event) :
  reset_runs fn k 1 s = Some (s', t) ->
  ((k < RETRY_TIMES)%nat ->
   forall err s'' t',
     fn s' = (Rejected err, s'', t') -> is_connection_reset err = false ->
     retry fn s = (Rejected err, s'', t ++ t'))
  /\ ((k < RETRY_TIMES)%nat ->
      forall a s'' t',
        fn s' = (Resolved a, s'', t') ->
        retry fn s = (Resolved a, s'', t ++ t'))
  /\ (k = RETRY_TIMES ->
      retry fn s = (Rejected (Js.new_Error "Retried too many times"), s', t)).
Proof.
  intros Hruns. unfold retry. split; [|split].
  - intros Hk err s'' t' Hfn Herr.
    replace RETRY_TIMES with (k + S (RETRY_TIMES - S k))%nat at 1 by lia.
    rewrite (retry_from_reset_runs fn k _ 1 s s' t Hruns).
    rewrite retry_from_S. unfold try_catch. rewrite Hfn, Herr.
    cbn. by rewrite app_nil_r.
  - intros Hk a s'' t' Hfn.
    replace RETRY_TIMES with (k + S (RETRY_TIMES - S k))%nat at 1 by lia.
    rewrite (retry_from_reset_runs fn k _ 1 s s' t Hruns).
    rewrite retry_from_S. unfold try_catch. by rewrite Hfn.
  - intros ->.
    pose proof (retry_from_reset_runs fn RETRY_TIMES 0 1 s s' t Hruns) as Hloop.
    rewrite Nat.add_0_r in Hloop. rewrite Hloop, retry_from_O.
    cbn. by rewrite app_nil_r.
Qed.

End Retry.

(** ** The cell editors *)

Section Editors.
Import TableCellEditor.
Context `{Toolkit} {Ctx : Type}.

(** C5. Whatever the state of an editor of either class, [validate]
    answers [{ valid: true, msg: undefined }]. *)
Theorem validate_always_succeeds (te : TextEditor.t) (de : DropdownEditor.t) :
  TextEditor.validate te = {| valid := true; msg := None |}
  /\ DropdownEditor.validate de = {| valid := true; msg := None |}.
Proof. split; reflexivity. Qed.

(** The one fact about the input box the text editor relies on: it
    gives back the value it was given. *)
Hypothesis InputBox_keeps_value :
  forall (value : string) (input : InputBox),
    InputBox_value (InputBox_set_value value input) = value.


End Editors.

(** ** How the process ends *)

Section ExitStatus.
Context {World : Type}.
Variable services : Services World.
Variable modules : Modules.
Variable process : Process.

Lemma falsy_commit (commit : option string) :
  Js.falsy commit = true -> commit = None \/ commit = Some "".
Proof.
  destruct commit as [commit|]; [|by left]. simpl.
  intros Hempty%String.eqb_eq. subst. by right.
Qed.

Lemma truthy_commit (commit : string) :
  Js.falsy (Some commit) = false -> exists c rest, commit = String c rest.
Proof. destruct commit as [|c rest]; [done|]. eauto. Qed.

(** C10. When [BUILD_SOURCEVERSION] is unset or empty, [main] only
    prints a warning: it makes no other call, so nothing is uploaded and
    no document is written, it leaves the world as it was, and the
    process ends with status zero.  So does the whole script when the
    command line is long enough for [main] to be reached. *)
Theorem main_skips_without_commit (s : State World) :
  Js.falsy (env process !! "BUILD_SOURCEVERSION") = true ->
  let skipped :=
    (Some 0%Z, s,
     [ConsoleWarn [LStr "Skipping publish due to missing BUILD_SOURCEVERSION"]]) in
  main services modules process s = skipped
  /\ ((9 <= length (argv process))%nat ->
      script services modules process s = skipped).
Proof.
  intros Hfalsy skipped.
  assert (main services modules process s = skipped) as Hmain.
  { unfold main. by destruct (falsy_commit _ Hfalsy) as [-> | ->]. }
  split; [done|]. intros Hargs. unfold script.
  by rewrite (proj2 (Nat.ltb_ge _ _) Hargs).
Qed.

(** C7. The script never ends with status zero when publishing fails.
    With fewer than nine words on the command line it prints the usage
    and exits with status -1 before anything else.  Otherwise, when
    [BUILD_SOURCEVERSION] is set and the promise of [publish] is
    rejected, it prints the error and exits with status 1. *)
Theorem failed_publish_exits_nonzero (s : State World) :
  ((length (argv process) < 9)%nat ->
   script services modules process s
   = (Some (-1)%Z, s, [ConsoleError [LStr usage]; ProcessExit (-1)]))
  /\ ((9 <= length (argv process))%nat ->
      forall commit err s' t,
        env process !! "BUILD_SOURCEVERSION" = Some commit ->
        Js.falsy (Some commit) = false ->
        publish_from services modules process
          (minimist modules (drop 2 (argv process))) commit s
        = (Rejected err, s', t) ->
        script services modules process s
        = (Some 1%Z, s', t ++ [ConsoleError [LErr err]; ProcessExit 1])).
Proof.
  split.
  - intros Hargs. unfold script.
    by rewrite (proj2 (Nat.ltb_lt _ _) Hargs).
  - intros Hargs commit err s' t Hcommit Htruthy Hpublish. unfold script.
    rewrite (proj2 (Nat.ltb_ge _ _) Hargs). unfold main. rewrite Hcommit.
    destruct (truthy_commit _ Htruthy) as (c & rest & ->).
    rewrite Hpublish. unfold exit. by rewrite <- app_assoc.
Qed.

End ExitStatus.

(** ** What a computation emits *)

Section Emits.
Context {World : Type}.
Implicit Types (P : Event -> Prop).

Lemma emits_ret {A} P (a : A) : emits (World := World) P (ret a).
Proof. intros s. apply Forall_nil_2. Qed.

Lemma emits_throw {A} P err : emits (World := World) (A := A) P (throw err).
Proof. intros s. apply Forall_nil_2. Qed.

Lemma emits_never {A} P : emits (World := World) (A := A) P never.
Proof. intros s. apply Forall_nil_2. Qed.

Lemma emits_await {A} P (p : Outcome A) : emits (World := World) P (await p).
Proof. intros s. apply Forall_nil_2. Qed.

Lemma emits_get_updateTries P : emits (World := World) P get_updateTries.
Proof. intros s. apply Forall_nil_2. Qed.

Lemma emits_set_updateTries P n : emits (World := World) P (set_updateTries n).
Proof. intros s. apply Forall_nil_2. Qed.

Lemma emits_emit P ev : P ev -> emits (World := World) P (emit ev).
Proof. intros Hev s. by apply Forall_singleton. Qed.

Lemma emits_log P args : P (ConsoleLog args) -> emits (World := World) P (log args).
Proof. apply emits_emit. Qed.

Lemma emits_call {R A} P (service : World -> R * World) (record : R -> Event)
    (settle : R -> Outcome A) :
  (forall r, P (record r)) -> emits P (call service record settle).
Proof.
  intros Hrecord s. unfold call, trace.
  destruct (service (world s)) as [r w]. by apply Forall_singleton.
Qed.

Lemma emits_bind {A B} P (m : M World A) (k : A -> M World B) :
  emits P m -> (forall a, emits P (k a)) -> emits P (bind m k).
Proof.
  intros Hm Hk s. specialize (Hm s). unfold bind, trace in *.
  destruct (m s) as [[[a|err|] s1] t1]; simpl in *; [|done..].
  specialize (Hk a s1). unfold trace in Hk.
  destruct (k a s1) as [[r s2] t2]. simpl in *. by apply Forall_app.
Qed.

Lemma emits_try_catch {A} P (m : M World A) (handler : Js.Error -> M World A) :
  emits P m -> (forall err, emits P (handler err)) -> emits P (try_catch m handler).
Proof.
  intros Hm Hh s. specialize (Hm s). unfold try_catch, trace in *.
  destruct (m s) as [[[a|err|] s1] t1]; simpl in *; [done| |done].
  specialize (Hh err s1). unfold trace in Hh.
  destruct (handler err s1) as [[r s2] t2]. simpl in *. by apply Forall_app.
Qed.

(** What a sequence emits first. *)
Lemma trace_bind_emit {B} (ev : Event) (k : unit -> M World B) (s : State World) :
  trace (bind (emit ev) k s) = ev :: trace (k tt s).
Proof. unfold bind, emit, trace. by destruct (k tt s) as [[r s'] t]. Qed.

Lemma trace_bind_ret_like {A B} (m : M World A) (k : A -> M World B)
    (s s1 : State World) (a : A) :
  m s = (Resolved a, s1, []) -> trace (bind m k s) = trace (k a s1).
Proof. intros Hm. unfold bind, trace. rewrite Hm. by destruct (k a s1) as [[r s'] t]. Qed.

Lemma trace_bind_call {R A B} (service : World -> R * World) (record : R -> Event)
    (settle : R -> Outcome A) (k : A -> M World B) (s : State World) :
  exists reply rest, trace (bind (call service record settle) k s) = record reply :: rest.
Proof.
  unfold bind, call, trace. destruct (service (world s)) as [reply w].
  exists reply. destruct (settle reply) as [a|err|]; cbn; [|by eauto..].
  destruct (k a _) as [[r s'] t]. cbn. eauto.
Qed.

Lemma trace_try_catch_prefix {A} (m : M World A) (handler : Js.Error -> M World A)
    (s : State World) :
  exists rest, trace (try_catch m handler s) = trace (m s) ++ rest.
Proof.
  unfold try_catch, trace. destruct (m s) as [[[a|err|] s1] t1]; cbn.
  1, 3: exists []; by rewrite app_nil_r.
  destruct (handler err s1) as [[r s'] t]. cbn. eauto.
Qed.

Lemma emits_impl {A} P Q (m : M World A) :
  (forall ev, P ev -> Q ev) -> emits P m -> emits Q m.
Proof. intros HPQ Hm s. eapply Forall_impl; [apply Hm|done]. Qed.

(** [retry] makes the calls of [fn] and the console's. *)
Lemma emits_retry_from {A} P (fn : M World A) :
  emits P fn -> (forall args, P (ConsoleLog args)) ->
  forall remaining run, emits P (retry_from remaining run fn).
Proof.
  intros Hfn Hlog. induction remaining as [|remaining IH]; intros run.
  - apply emits_throw.
  - rewrite retry_from_S. apply emits_try_catch; [done|]. intros err.
    destruct (negb _); [apply emits_throw|].
    apply emits_bind; [by apply emits_log|]. intros _. apply IH.
Qed.

End Emits.

(** ** The calls of the script's functions *)

Section Calls.
Context {World : Type}.
Variable services : Services World.
Variable modules : Modules.
Variable process : Process.

Lemma emits_getConfig (quality : string) :
  emits (config_call quality) (getConfig services quality).
Proof.
  unfold getConfig. apply emits_bind; [apply emits_log; by left|]. intros _.
  apply emits_retry_from; [|intros args; by left].
  apply emits_call. intros reply. right. by exists reply.
Qed.

Section CreateOrUpdate.
Variables commit quality platform type : string.
Variable release : Release.t.
Variable asset : Asset.t.
Variable isUpdate : bool.

Let document_call' : Event -> Prop :=
  document_call commit quality platform type release asset isUpdate.

Lemma emits_update_body (again : M World unit) :
  emits document_call' again ->
  emits document_call'
    (update_body services commit quality platform type asset isUpdate again).
Proof.
  intros Hagain. unfold update_body.
  apply emits_bind; [apply emits_get_updateTries|]; intros tries.
  apply emits_bind; [apply emits_set_updateTries|]; intros _.
  apply emits_bind; [apply emits_log; by left|]; intros _.
  apply emits_bind;
    [apply emits_call; intros reply; right; right; left; by exists reply|].
  intros [[|found [|]]|err]; try apply emits_throw.
  apply emits_bind; [apply emits_log; by left|]; intros _.
  apply emits_bind;
    [apply emits_call; intros err; right; right; right; by exists found, err|].
  intros err.
  apply emits_bind; [apply emits_get_updateTries|]; intros tries'.
  destruct err as [err|]; [|apply emits_log; by left].
  destruct (_ && _); [done|apply emits_throw].
Qed.

Lemma emits_update_fuel (fuel : nat) :
  emits document_call'
    (update_fuel services commit quality platform type asset isUpdate fuel).
Proof.
  induction fuel as [|fuel IH]; cbn [update_fuel]; apply emits_update_body.
  - apply emits_never.
  - apply IH.
Qed.

Lemma emits_create_attempt :
  emits document_call'
    (create_attempt services commit quality platform type release asset isUpdate).
Proof.
  unfold create_attempt.
  apply emits_bind; [apply emits_log; by left|]. intros _.
  apply emits_bind; [apply emits_call; intros err; right; left; by exists err|].
  intros [err|]; [|apply emits_log; by left].
  destruct (Js.code_is _ _); [apply emits_update_fuel|apply emits_throw].
Qed.

Lemma emits_createOrUpdate :
  emits document_call'
    (createOrUpdate services commit quality platform type release asset isUpdate).
Proof.
  unfold createOrUpdate.
  apply emits_bind; [apply emits_set_updateTries|]. intros _.
  apply emits_retry_from; [apply emits_create_attempt|]. intros args. by left.
Qed.

(** [createOrUpdate] starts with an attempt to create the document. *)
Lemma createOrUpdate_creates_first (s : State World) :
  exists err rest,
    trace (createOrUpdate services commit quality platform type release asset
             isUpdate s)
    = ConsoleLog [LStr "Attempting to create document"]
      :: CreateDocument (collection quality) release err :: rest.
Proof.
  unfold createOrUpdate, retry.
  change RETRY_TIMES with (S (Nat.pred RETRY_TIMES)). rewrite retry_from_S.
  erewrite trace_bind_ret_like; [|reflexivity]. cbn beta.
  match goal with
  | |- context [trace (try_catch ?m ?handler ?s0)] =>
      destruct (trace_try_catch_prefix m handler s0) as [rest ->]
  end.
  unfold create_attempt, log. rewrite trace_bind_emit.
  match goal with
  | |- context [trace (bind (call ?service ?record ?settle) ?k ?s0)] =>
      destruct (trace_bind_call service record settle k s0) as (err & rest' & ->)
  end.
  by exists err, (rest' ++ rest).
Qed.

End CreateOrUpdate.

(** When [retry] returns a result, its last call of [fn] returned it. *)
Lemma retry_from_resolved {A} (fn : M World A) (a : A) :
  forall remaining run s s' t,
    retry_from remaining run fn s = (Resolved a, s', t) ->
    exists s1 t0 t1, fn s1 = (Resolved a, s', t1) /\ t = t0 ++ t1.
Proof.
  induction remaining as [|remaining IH]; intros run s s' t; [done|].
  rewrite retry_from_S. unfold try_catch.
  destruct (fn s) as [[[a'|err|] s1] t1] eqn:Hfn; [| |done].
  - intros [= -> -> ->]. by exists s, [], t.
  - destruct (negb _); [done|]. unfold bind, log, emit.
    destruct (retry_from remaining (S run) fn s1) as [[r s2] t2] eqn:Hrest.
    intros [= -> -> <-].
    destruct (IH _ _ _ _ Hrest) as (s3 & t0 & t3 & Hlast & ->).
    exists s3, (t1 ++ ConsoleLog (caught err run) :: t0), t3.
    split; [done|]. by rewrite <- app_assoc.
Qed.

Lemma service_calls_app (t1 t2 : list Event) :
  service_calls (t1 ++ t2) = service_calls t1 ++ service_calls t2.
Proof. apply List.filter_app. Qed.

Lemma service_calls_Forall (P : Event -> Prop) (t : list Event) :
  Forall P t -> Forall P (service_calls t).
Proof.
  intros Ht. apply Forall_forall. intros ev Hev.
  apply list_elem_of_In, List.filter_In in Hev as [Hev _].
  apply list_elem_of_In in Hev. by eapply Forall_forall in Ht.
Qed.

Lemma service_calls_not_console (t : list Event) :
  Forall (fun ev => is_console ev = false) (service_calls t).
Proof.
  apply Forall_forall. intros ev Hev.
  apply list_elem_of_In, List.filter_In in Hev as [_ Hev].
  by apply negb_true_iff.
Qed.

(** When [getConfig] returns a configuration, the last answer it got
    is one it accepts. *)
Lemma getConfig_resolved (quality : string) (config : Config.t)
    (s s' : State World) (t : list Event) :
  getConfig services quality s = (Resolved config, s', t) ->
  exists ev, last (service_calls t) = Some ev /\ config_accepted ev.
Proof.
  unfold getConfig, bind at 1, log, emit, retry.
  destruct (retry_from _ _ _ _) as [[r s1] t1] eqn:Hretry.
  intros [= -> -> <-].
  apply retry_from_resolved in Hretry as (s2 & t0 & t2 & Hcall & ->).
  unfold call in Hcall. destruct (db_queryConfig _ _ _ _) as [reply w].
  injection Hcall as Hsettle _ <-.
  exists (QueryConfig "dbs/builds/colls/config" quality reply). split.
  - change (ConsoleLog ?args :: ?l) with ([ConsoleLog args] ++ l).
    rewrite !service_calls_app. cbn. by rewrite last_snoc.
  - exists "dbs/builds/colls/config", quality, reply. split; [done|].
    destruct reply as [results|err]; [done|].
    by destruct (Js.code_is 409 err).
Qed.

End Calls.

(** ** Runs of [publish] *)

Ltac reduce_run :=
  cbn -[getConfig createOrUpdate new_asset new_release].

(** Case analysis on the answers [publish] gets, in the order it asks
    for them. *)
Ltac publish_cases :=
  unfold publish, publish_header, assertContainer, doesAssetExist, uploadBlob,
    getTime, log, emit, call, await, bind, outcome, trace, final;
  reduce_run;
  destruct (fs_stat _ _ _) as [[size|err] w1]; reduce_run;
  [destruct (fs_createReadStream _ _ _) as [[chunks|chunks err] w2]; reduce_run;
   [destruct (blob_createContainerIfNotExists _ _ _) as [[err|] w3]; reduce_run;
    [|destruct (blob_doesBlobExist _ _ _ _) as [[[|]|err] w4]; reduce_run;
      [|destruct (blob_createBlockBlobFromLocalFile _ _ _ _ _ _) as [[err|] w5];
        reduce_run;
        [|match goal with
          | |- context [getConfig ?sv ?q ?st] =>
              pose proof (emits_getConfig sv q st) as Hconfigs;
              unfold trace in Hconfigs;
              destruct (getConfig sv q st) as [[[config|err|] s6] configs]
                eqn:Hconfig;
              reduce_run
          end;
          [match goal with
           | |- context [createOrUpdate ?sv ?c ?q ?p ?ty ?rel ?a ?u ?st] =>
               pose proof (emits_createOrUpdate sv c q p ty rel a u st) as Hdocs;
               unfold trace in Hdocs;
               destruct (createOrUpdate_creates_first sv c q p ty rel a u st)
                 as (err & rest & Hfirst);
               unfold trace in Hfirst;
               destruct (createOrUpdate sv c q p ty rel a u st) as [[r s7] docs]
                 eqn:Hrecord;
               cbn [snd] in Hfirst, Hdocs; reduce_run
           end| |]]|]]|]|].

(** Membership in an explicit list of calls. *)
Ltac find_call H :=
  repeat (apply elem_of_cons in H as [H|H]; [try discriminate H|]);
  try (by apply elem_of_nil in H).

(** Membership in an explicit list of calls, of a call of some kind. *)
Ltac find_kind Hin Hkind :=
  repeat (apply elem_of_cons in Hin as [->|Hin]; [try discriminate Hkind|]);
  try (by apply elem_of_nil in Hin).


Section PublishRuns.
Context {World : Type}.
Variable services : Services World.
Variable modules : Modules.
Variable process : Process.

Lemma config_call_kind (quality : string) (ev : Event) :
  config_call quality ev ->
  is_upload ev = false /\ is_document_call ev = false
  /\ is_document_write ev = false
  /\ (is_console ev = false -> is_config_query ev = true)
  /\ forall container blob reply, ev <> DoesBlobExist container blob reply.
Proof.
  intros [Hconsole|[reply ->]]; [|done]. by destruct ev.
Qed.

Lemma document_call_kind commit quality platform type release asset isUpdate
    (ev : Event) :
  document_call commit quality platform type release asset isUpdate ev ->
  is_upload ev = false /\ is_config_query ev = false
  /\ (is_console ev = false -> is_document_call ev = true)
  /\ forall container blob reply, ev <> DoesBlobExist container blob reply.
Proof.
  intros [Hconsole|[[err ->]|[[reply ->]|(found & err & ->)]]]; [|done..].
  by destruct ev.
Qed.

(** C1. A run of [publish] that finds the blob of the commit and the
    name in the container of the quality returns; its calls to the world
    outside are the four that come before and with the check, so it
    uploads no blob, does not query the configuration of the quality,
    and neither creates, queries nor replaces a release document. *)
Theorem publish_existing_blob_is_noop
    (commit quality platform type name version _isUpdate file : string)
    (opts : Argv) (s : State World) :
  let blobName := commit +:+ "/" +:+ name in
  let run :=
    publish services modules process commit quality platform type name version
      _isUpdate file opts s in
  DoesBlobExist quality blobName (Ok true) ∈ trace run ->
  outcome run = Resolved tt
  /\ (exists size chunks,
        service_calls (trace run)
        = [FsStat file (Ok size);
           FsReadStream file (Closed chunks);
           CreateContainerIfNotExists quality None;
           DoesBlobExist quality blobName (Ok true)])
  /\ Forall (fun ev => is_upload ev = false /\ is_config_query ev = false
                       /\ is_document_call ev = false)
       (trace run).
Proof.
  intros blobName run. subst run blobName.
  publish_cases; intros Hin.
  all: try (exfalso; find_call Hin; fail).
  { split; [done|]. split; [by exists size, chunks|]. repeat constructor. }
  all: exfalso; find_call Hin.
  - apply elem_of_app in Hin as [Hin|Hin].
    + eapply Forall_forall in Hconfigs; [|done].
      apply config_call_kind in Hconfigs as (_ & _ & _ & _ & Hne). by eapply Hne.
    + find_call Hin. eapply Forall_forall in Hdocs; [|done].
      apply document_call_kind in Hdocs as (_ & _ & _ & Hne). by eapply Hne.
  - eapply Forall_forall in Hconfigs; [|done].
    apply config_call_kind in Hconfigs as (_ & _ & _ & _ & Hne). by eapply Hne.
  - eapply Forall_forall in Hconfigs; [|done].
    apply config_call_kind in Hconfigs as (_ & _ & _ & _ & Hne). by eapply Hne.
Qed.

Lemma service_calls_kind (P Q : Event -> Prop) (t : list Event) :
  (forall ev, P ev -> is_console ev = false -> Q ev) ->
  Forall P t -> Forall Q (service_calls t).
Proof.
  intros HPQ Ht. apply Forall_forall. intros ev Hev.
  apply HPQ.
  - eapply Forall_forall; [by apply service_calls_Forall|done].
  - eapply Forall_forall in Hev; [|apply service_calls_not_console]. done.
Qed.

(** C6. The order of the calls of [publish].  A run that returns after
    an upload, and any run that creates or replaces a release document,
    has made its calls to the world outside in this order: [fs.stat],
    the stream that both hashes are computed from, read to its end, the
    container, the check of the blob, the upload, each without an
    error; then the queries of the configuration, up to an answer that
    is accepted; then the calls to the release documents, the first of
    which creates one.  So the upload comes before any write of a
    document, and no document is written once an earlier step fails. *)
Theorem publish_calls_in_order
    (commit quality platform type name version _isUpdate file : string)
    (opts : Argv) (s : State World) :
  let blobName := commit +:+ "/" +:+ name in
  let options :=
    {| contentType := mime_lookup modules file;
       cacheControl := "max-age=31536000, public" |} in
  let run :=
    publish services modules process commit quality platform type name version
      _isUpdate file opts s in
  (outcome run = Resolved tt /\ exists ev, ev ∈ trace run /\ is_upload ev = true)
  \/ (exists ev, ev ∈ trace run /\ is_document_write ev = true) ->
  in_publish_order quality blobName file options (service_calls (trace run)).
Proof.
  intros blobName options run. subst run blobName options.
  publish_cases.
  all: intros [[Hres (ev & Hin & Hkind)]|(ev & Hin & Hkind)]; try discriminate Hres.
  all: try (exfalso; find_kind Hin Hkind; fail).
  3-4: exfalso; find_kind Hin Hkind; eapply Forall_forall in Hconfigs; [|done];
       apply config_call_kind in Hconfigs as (_ & _ & Hwrite & _); congruence.
  all: exists size, chunks, (service_calls configs), (service_calls docs).
  all: split; [unfold service_calls; cbn; by rewrite List.filter_app|].
  all: split;
    [eapply service_calls_kind; [|exact Hconfigs]; intros ev' Hev' Hconsole;
     by apply config_call_kind in Hev' as (_ & _ & _ & Hquery & _); auto|].
  all: split; [by eapply getConfig_resolved|].
  all: split;
    [eapply service_calls_kind; [|exact Hdocs]; intros ev' Hev' Hconsole;
     by apply document_call_kind in Hev' as (_ & _ & Hcall & _); auto|].
  all: rewrite Hfirst; cbn.
  all: eexists; split; [done|]; by eexists _, _, _.
Qed.


End PublishRuns.

(** ** Conflicts in [createOrUpdate] *)

Section Conflicts.
Context {World : Type}.
Variable services : Services World.
Variables commit quality platform type : string.
Variable release : Release.t.
Variable asset : Asset.t.
Variable isUpdate : bool.

Let update_fuel' := update_fuel services commit quality platform type asset isUpdate.
Let update' := update services commit quality platform type asset isUpdate.






(** One update never leaves its promise pending. *)
Lemma update_settles (s : State World) : outcome (update' s) <> Pending.
Proof.
  subst update'. unfold update.
  assert (forall fuel s,
            (MAX_UPDATE_TRIES <= S (fuel + updateTries s))%nat ->
            outcome (update_fuel' fuel s) <> Pending) as Hfuel.
  { subst update_fuel'. unfold MAX_UPDATE_TRIES.
    induction fuel as [|fuel IH]; intros s' Hs'; cbn [update_fuel].
    all: unfold update_body, bind, get_updateTries, set_updateTries, log, emit, call,
           throw, never, outcome.
    all: cbn [world updateTries].
    all: destruct (db_queryDocuments _ _ _ _) as [[[|found [|]]|err] w1]; try done.
    all: cbn [world updateTries].
    all: destruct (db_replaceDocument _ _ _ _) as [[err|] w2]; [|done].
    all: cbn [world updateTries]; destruct (Js.code_is 409 err); [|done]; cbn [andb].
    all: destruct (Nat.ltb_spec (S (updateTries s')) MAX_UPDATE_TRIES) as [Hlt|Hge];
      [|done].
    all: unfold MAX_UPDATE_TRIES in Hlt.
    - lia.
    - specialize (IH (mkState w2 (S (updateTries s')))).
      unfold outcome in IH. destruct (update_fuel _ _ _ _ _ _ _ fuel _) as [[r s3] t3].
      cbn in *. apply IH. lia. }
  apply Hfuel. unfold MAX_UPDATE_TRIES. lia.
Qed.


End Conflicts.

(** ** Every promise settles *)

Section Settles.
Context {World : Type}.
Variable services : Services World.
Variable modules : Modules.
Variable process : Process.

Lemma retry_from_settles {A} (fn : M World A) :
  (forall s, outcome (fn s) <> Pending) ->
  forall remaining run s, outcome (retry_from remaining run fn s) <> Pending.
Proof.
  intros Hfn. induction remaining as [|remaining IH]; intros run s; [done|].
  rewrite retry_from_S. unfold try_catch.
  specialize (Hfn s). destruct (fn s) as [[[a|err|] s1] t1]; [done| |done].
  destruct (negb _); [done|]. unfold bind, log, emit.
  specialize (IH (S run) s1).
  by destruct (retry_from remaining (S run) fn s1) as [[r s2] t2].
Qed.

Lemma getConfig_settles (quality : string) (s : State World) :
  outcome (getConfig services quality s) <> Pending.
Proof.
  unfold getConfig, bind, log, emit, retry.
  match goal with
  | |- context [retry_from ?n ?run ?fn ?s0] =>
      pose proof (fun Hfn => retry_from_settles fn Hfn n run s0) as Hretry;
      destruct (retry_from n run fn s0) as [[r s1] t1]
  end.
  apply Hretry. intros s0. unfold call, outcome.
  destruct (db_queryConfig _ _ _ _) as [[[|config results]|err] w]; cbn; [done..|].
  by destruct (negb _).
Qed.

Lemma createOrUpdate_settles (commit quality platform type : string)
    (release : Release.t) (asset : Asset.t) (isUpdate : bool) (s : State World) :
  outcome
    (createOrUpdate services commit quality platform type release asset isUpdate s)
  <> Pending.
Proof.
  unfold createOrUpdate, bind at 1, set_updateTries, retry.
  match goal with
  | |- context [retry_from ?n ?run ?fn ?s0] =>
      pose proof (fun Hfn => retry_from_settles fn Hfn n run s0) as Hretry;
      destruct (retry_from n run fn s0) as [[r s1] t1]
  end.
  apply Hretry. intros s0. unfold create_attempt, bind, log, emit, call.
  destruct (db_createDocument _ _ _ _) as [[err|] w]; cbn [world updateTries]; [|done].
  destruct (Js.code_is 409 err); [|done].
  match goal with
  | |- context [update ?sv ?c ?q ?p ?ty ?a ?u ?s2] =>
      pose proof (update_settles sv c q p ty a u s2) as Hupdate;
      destruct (update sv c q p ty a u s2) as [[r2 s3] t3]
  end.
  done.
Qed.

(** [publish] returns or fails, whatever the world answers. *)
Lemma publish_settles
    (commit quality platform type name version _isUpdate file : string)
    (opts : Argv) (s : State World) :
  outcome
    (publish services modules process commit quality platform type name version
       _isUpdate file opts s)
  <> Pending.
Proof.
  publish_cases; try done.
  - pose proof (createOrUpdate_settles commit quality platform type
                  (new_release process commit quality platform type version
                     (String.eqb _isUpdate "true") opts
                     (new_asset process quality platform type
                        (commit +:+ "/" +:+ name)
                        (crypto_digest modules "sha1" chunks)
                        (crypto_digest modules "sha256" chunks) size)
                     (Date_now services (world s6)))
                  (new_asset process quality platform type
                     (commit +:+ "/" +:+ name)
                     (crypto_digest modules "sha1" chunks)
                     (crypto_digest modules "sha256" chunks) size)
                  (String.eqb _isUpdate "true") s6) as Hsettles.
    by rewrite Hrecord in Hsettles.
  - pose proof (getConfig_settles quality
                  (mkState w5 (updateTries s))) as Hsettles.
    by rewrite Hconfig in Hsettles.
Qed.

(** The script always ends, with a status. *)
Lemma script_exits (s : State World) :
  exists status : Z, (script services modules process s).1.1 = Some status.
Proof.
  unfold script. destruct (_ <? _)%nat; [by eexists|].
  unfold main. destruct (env process !! "BUILD_SOURCEVERSION") as [[|c commit]|];
    [by eexists| |by eexists].
  unfold publish_from.
  destruct (positional _) as [|quality [|platform [|type [|name [|version
              [|_isUpdate [|file rest]]]]]]]; try (by eexists).
  pose proof (publish_settles (String c commit) quality platform type name version
                _isUpdate file (minimist modules (drop 2 (argv process))) s)
    as Hsettles.
  destruct (publish _ _ _ _ _ _ _ _ _ _ _ _ _) as [[[[]|err|] s'] t];
    [by eexists..|done].
Qed.

End Settles.

(** ** The statements on runs in memory *)

Module InMemoryRuns.
Import InMemory.

(** The call number [i] of a run that computes. *)
Ltac call_number i :=
  apply (list_elem_of_lookup_2 _ i); vm_compute; reflexivity.

Lemma publish_existing_blob_is_noop_witness :
  DoesBlobExist "insider" "c0ffee/product.zip" (Ok true) ∈ trace second_publish
  /\ outcome second_publish = Resolved tt
  /\ Forall (fun ev => is_upload ev = false /\ is_config_query ev = false
                       /\ is_document_call ev = false)
       (trace second_publish).
Proof.
  assert (DoesBlobExist "insider" "c0ffee/product.zip" (Ok true)
          ∈ trace second_publish) as Hfound by call_number 15%nat.
  split; [exact Hfound|].
  destruct (publish_existing_blob_is_noop services modules (process false)
              "c0ffee" "insider" "win32-x64" "archive" "product.zip" "1.25.0"
              "true" "/build/product.zip" (command (process false))
              (start published) Hfound) as (Hreturns & _ & Hnone).
  split; [exact Hreturns|exact Hnone].
Defined.

Lemma update_keeps_one_asset_per_pair_witness :
  one_asset_per_pair [setup; archive]
  /\ assets_for "win32-x64" "setup"
       (Release.assets
          (updated_release "win32-x64" "setup" setup false
             (Release.with_assets [setup; archive] setup_release)))
     = [setup]
  /\ one_asset_per_pair
       (Release.assets
          (updated_release "win32-x64" "setup" setup false
             (Release.with_assets [setup; archive] setup_release))).
Proof.
  assert (one_asset_per_pair [setup; archive]) as Hinv.
  { apply (bool_decide_unpack _). vm_compute. reflexivity. }
  split; [exact Hinv|].
  exact (update_keeps_one_asset_per_pair setup false
           (Release.with_assets [setup; archive] setup_release) Hinv).
Defined.

(** Three runs reset, then a missing file; resets for ever; three runs
    reset, then a result. *)
Lemma retry_rethrows_returns_or_gives_up_witness :
  (let run :=
     retry (counting (fun n => Rejected (if (n <? 3)%nat then ECONNRESET else ENOENT)))
       (mkState 0%nat 0) in
   outcome run = Rejected ENOENT /\ world (final run) = 4%nat)
  /\ (let run :=
        retry (counting (fun n => if (n <? 3)%nat then Rejected ECONNRESET else Resolved n))
          (mkState 0%nat 0) in
      outcome run = Resolved 3%nat /\ world (final run) = 4%nat)
  /\ (let run := retry (counting (fun _ => Rejected ECONNRESET)) (mkState 0%nat 0) in
      outcome run = Rejected (Js.new_Error "Retried too many times")
      /\ world (final run) = 10%nat).
Proof.
  split; [|split].
  - pose proof
      (proj1 (retry_rethrows_returns_or_gives_up
                (counting (fun n => Rejected (if (n <? 3)%nat then ECONNRESET else ENOENT)))
                3 (mkState 0%nat 0) _ _ eq_refl)) as Hrethrown.
    rewrite (Hrethrown ltac:(unfold RETRY_TIMES; lia) ENOENT _ _ eq_refl eq_refl).
    split; reflexivity.
  - pose proof
      (proj1 (proj2 (retry_rethrows_returns_or_gives_up
                (counting (fun n => if (n <? 3)%nat then Rejected ECONNRESET else Resolved n))
                3 (mkState 0%nat 0) _ _ eq_refl))) as Hreturned.
    rewrite (Hreturned ltac:(unfold RETRY_TIMES; lia) 3%nat _ _ eq_refl).
    split; reflexivity.
  - pose proof
      (proj2 (proj2 (retry_rethrows_returns_or_gives_up
                (counting (fun _ => Rejected ECONNRESET))
                10 (mkState 0%nat 0) _ _ eq_refl))) as Hgiven_up.
    rewrite (Hgiven_up eq_refl). split; reflexivity.
Defined.

Lemma main_skips_without_commit_witness :
  Js.falsy (env process_without_commit !! "BUILD_SOURCEVERSION") = true
  /\ script services modules process_without_commit (start empty)
     = (Some 0%Z, start empty,
        [ConsoleWarn [LStr "Skipping publish due to missing BUILD_SOURCEVERSION"]]).
Proof.
  assert (Js.falsy (env process_without_commit !! "BUILD_SOURCEVERSION") = true)
    as Hunset by (vm_compute; reflexivity).
  split; [exact Hunset|].
  apply (main_skips_without_commit services modules process_without_commit
           (start empty) Hunset).
  vm_compute. lia.
Defined.

(** A command line that is too short; a command line without the file,
    on which [publish] fails. *)
Lemma failed_publish_exits_nonzero_witness :
  (script services modules short_process (start empty)).1.1 = Some (-1)%Z
  /\ (script services modules process_without_file (start empty)).1.1 = Some 1%Z.
Proof.
  split.
  - rewrite (proj1 (failed_publish_exits_nonzero services modules short_process
                      (start empty)));
      [reflexivity|vm_compute; lia].
  - erewrite (proj2 (failed_publish_exits_nonzero services modules
                       process_without_file (start empty)));
      [reflexivity|vm_compute; lia|reflexivity|reflexivity|reflexivity].
Defined.

Lemma publish_calls_in_order_witness :
  in_publish_order "insider" "c0ffee/product.zip" "/build/product.zip"
    {| contentType := "application/octet-stream";
       cacheControl := "max-age=31536000, public" |}
    (service_calls (trace (first_publish false))).
Proof.
  apply (publish_calls_in_order services modules (process false) "c0ffee"
           "insider" "win32-x64" "archive" "product.zip" "1.25.0" "true"
           "/build/product.zip" (command (process false)) (start empty)).
  left. split; [vm_compute; reflexivity|].
  exists (CreateBlockBlobFromLocalFile "insider" "c0ffee/product.zip"
            "/build/product.zip"
            {| contentType := "application/octet-stream";
               cacheControl := "max-age=31536000, public" |} None).
  split; [call_number 17%nat|reflexivity].
Defined.




(** Run again, the publication leaves the blobs and the documents as
    they were. *)
Example republish_changes_nothing :
  outcome second_publish = Resolved tt
  /\ world (final second_publish) = published.
Proof. split; vm_compute; reflexivity. Qed.

(** A first publication stores the blob and the document of the
    commit. *)
Example first_publish_stores :
  blobs published = [("insider", "c0ffee/product.zip")]
  /\ (Release.assets <$> (snd <$> documents published)) = [[archive]].
Proof. split; vm_compute; reflexivity. Qed.

(** The script exits with status 1 when the file is missing. *)
Example missing_file_exits_1 :
  (script services modules (process false)
     (start {| files := ∅; blobs := []; documents := []; resets := 0;
               conflicts := 0; clock := 0 |})).1.1
  = Some 1%Z.
Proof. vm_compute. reflexivity. Qed.

(** Conflicts at every replacement: five updates are run, and
    [createOrUpdate] fails with the conflict of the fifth. *)
Example five_updates_at_most :
  let run := record_setup (start (with_conflicts 9 published)) in
  length (List.filter is_replace (trace run)) = 5%nat
  /\ outcome run = Rejected conflict
  /\ conflicts (world (final run)) = 4%nat.
Proof. vm_compute. repeat split. Qed.

End InMemoryRuns.

(** ** Checks of the helpers *)

Module Checks.

Example test_literal : Js.test (Js.literal "ECONNRESET") "read ECONNRESET" = true.
Proof. reflexivity. Qed.

Example test_literal_absent : Js.test (Js.literal "ECONNRESET") "socket hang up" = false.
Proof. reflexivity. Qed.

(** An error without a message is no connection reset. *)
Example conflict_is_no_reset : is_connection_reset InMemory.conflict = false.
Proof. reflexivity. Qed.

Example released_insider :
  is_released "insider" (Some "refs/heads/main")
    (Some "Microsoft.VisualStudio.Services.TFS") = true.
Proof. reflexivity. Qed.

(** The dots of the pattern match any character. *)
Example released_by_wildcard :
  is_released "rc1" (Some "release/1.25") (Some "[Microsoft VisualStudio-Services/TFS]")
  = true.
Proof. reflexivity. Qed.

Example not_released_from_branch :
  is_released "insider" (Some "refs/heads/main-next")
    (Some "Project Collection Service Accounts") = false.
Proof. reflexivity. Qed.

Example not_released_without_branch :
  is_released "insider" None (Some "Project Collection Service Accounts") = false.
Proof. reflexivity. Qed.

Example indexOf_first :
  TableCellEditor.indexOf "b" ["a"; "b"; "c"; "b"] = Some 1%nat.
Proof. reflexivity. Qed.

Example indexOf_absent : TableCellEditor.indexOf "d" ["a"; "b"] = None.
Proof. reflexivity. Qed.

Example updated_assets_replaces :
  updated_assets "win32-x64" "setup" InMemory.setup [InMemory.setup; InMemory.archive]
  = [InMemory.archive; InMemory.setup].
Proof. reflexivity. Qed.

End Checks.

(** ** The statements on the toolkit of plain values *)

Module PlainEditors.
Import TableCellEditor Plain.


(** A text editor applies the value to the field of its column. *)
Example applyValue_sets_field :
  TextEditor.applyValue factory tt item "customers" (TextEditor.new factory text args)
  !! "name" = Some "customers".
Proof. vm_compute. reflexivity. Qed.

(** A dropdown editor shows the loaded value when it is an option. *)
Example dropdown_loads_option :
  let getter : TableCellEditorFactory (Ctx := unit) :=
    new_TableCellEditorFactory
      {| valueGetter := None; valueSetter := None;
         optionsGetter := Some (fun _ _ => Some ["invoices"; "orders"]);
         style_InputBox := id; style_SelectBox := id; style_Dropdown := id |}
      tt in
  let e :=
    DropdownEditor.loadValue getter None false item
      (DropdownEditor.new getter false args) in
  DropdownEditor.serializeValue false e = Some "orders"
  /\ DropdownEditor.isValueChanged false e = Some false.
Proof. vm_compute. split; reflexivity. Qed.

End PlainEditors.

(** * Further properties *)

Import Observations.

(** ** Every run of [retry] *)

Section RetryRuns.
Context {World : Type}.

Lemma retry_from_cases {A} (fn : M World A) (remaining : nat) :
  forall (run : nat) (s : State World),
    exists k s1 t1,
      reset_runs fn k run s = Some (s1, t1)
      /\ ((k = remaining
           /\ retry_from remaining run fn s
              = (Rejected (Js.new_Error "Retried too many times"), s1, t1))
          \/ ((k < remaining)%nat
              /\ exists r s2 t2,
                   fn s1 = (r, s2, t2)
                   /\ (forall err, r = Rejected err -> is_connection_reset err = false)
                   /\ retry_from remaining run fn s = (r, s2, t1 ++ t2))).
Proof.
  induction remaining as [|remaining IH]; intros run s.
  - exists 0%nat, s, []. split; [done|]. left. by rewrite retry_from_O.
  - rewrite retry_from_S. unfold try_catch.
    destruct (fn s) as [[r s2] t2] eqn:Hfn.
    assert (forall k s1 t1,
              reset_runs fn k (S run) s2 = Some (s1, t1) ->
              forall err, r = Rejected err -> is_connection_reset err = true ->
              reset_runs fn (S k) run s = Some (s1, t2 ++ ConsoleLog (caught err run) :: t1))
      as Hstep.
    { intros k s1 t1 Hruns err -> Herr. cbn [reset_runs]. rewrite Hfn, Herr, Hruns. done. }
    destruct r as [a|err|].
    + exists 0%nat, s, []. split; [done|]. right. split; [lia|].
      exists (Resolved a), s2, t2. by rewrite Hfn.
    + destruct (is_connection_reset err) eqn:Herr; cbn [negb].
      * destruct (IH (S run) s2) as (k & s1 & t1 & Hruns & Hcases).
        exists (S k), s1, (t2 ++ ConsoleLog (caught err run) :: t1).
        split; [by eapply Hstep|].
        unfold bind, log, emit.
        destruct Hcases as [[-> Hgive_up]|(Hk & r & s3 & t3 & Hlast & Hr & Hretry)].
        -- left. split; [done|]. by rewrite Hgive_up.
        -- right. split; [lia|]. exists r, s3, t3. split; [done|]. split; [done|].
           rewrite Hretry. by rewrite <- app_assoc.
      * exists 0%nat, s, []. split; [done|]. right. split; [lia|].
        exists (Rejected err), s2, t2. rewrite Hfn. split; [done|]. split.
        -- by intros err' [= <-].
        -- unfold throw. by rewrite app_nil_r.
    + exists 0%nat, s, []. split; [done|]. right. split; [lia|].
      exists Pending, s2, t2. by rewrite Hfn.
Qed.

(** X1. Whatever [fn] does, [retry] runs it at least once and at most
    ten times: some number [k] of runs, ten at most, each fail with a
    connection reset; if [k] is ten [retry] gives up with "Retried too
    many times", and otherwise it ends as run [k + 1] ends, which is not
    with a connection reset: with its result, with its error, or never
    when that run never ends. *)
Theorem retry_runs_at_most_ten_times {A} (fn : M World A) (s : State World) :
  exists k s1 t1,
    reset_runs fn k 1 s = Some (s1, t1)
    /\ ((k = RETRY_TIMES
         /\ retry fn s
            = (Rejected (Js.new_Error "Retried too many times"), s1, t1))
        \/ ((k < RETRY_TIMES)%nat
            /\ exists r s2 t2,
                 fn s1 = (r, s2, t2)
                 /\ (forall err, r = Rejected err -> is_connection_reset err = false)
                 /\ retry fn s = (r, s2, t1 ++ t2))).
Proof. apply retry_from_cases. Qed.

End RetryRuns.

(** ** The configuration of a quality *)

Section GetConfig.
Context {World : Type}.
Variable services : Services World.

(** The calls of runs that each make one call to the world outside. *)
Lemma reset_runs_calls {A} (fn : M World A) :
  (forall s, length (service_calls (trace (fn s))) = 1%nat) ->
  forall k run s s1 t1,
    reset_runs fn k run s = Some (s1, t1) -> length (service_calls t1) = k.
Proof.
  intros Hone. induction k as [|k IH]; intros run s s1 t1; cbn [reset_runs].
  - by intros [= <- <-].
  - specialize (Hone s). unfold trace in Hone.
    destruct (fn s) as [[[a|err|] s2] t2]; try done.
    destruct (is_connection_reset err); [|done].
    destruct (reset_runs fn k (S run) s2) as [[s3 t3]|] eqn:Hruns; [|done].
    cbn [mbind option_bind]. intros [= <- <-].
    rewrite service_calls_app, length_app.
    change (service_calls (ConsoleLog (caught err run) :: t3))
      with (service_calls t3).
    cbn [snd] in Hone. rewrite Hone, (IH _ _ _ _ Hruns). done.
Qed.

Lemma retry_calls_bound {A} (fn : M World A) (s : State World) :
  (forall s, length (service_calls (trace (fn s))) = 1%nat) ->
  (1 <= length (service_calls (trace (retry fn s))) <= RETRY_TIMES)%nat.
Proof.
  intros Hone.
  destruct (retry_from_cases fn RETRY_TIMES 1 s) as (k & s1 & t1 & Hruns & Hcases).
  apply (reset_runs_calls fn Hone) in Hruns.
  unfold retry.
  destruct Hcases as [[-> ->]|(Hk & r & s2 & t2 & Hlast & _ & ->)]; unfold trace; cbn [snd].
  - rewrite Hruns. unfold RETRY_TIMES. lia.
  - specialize (Hone s1). rewrite Hlast in Hone. unfold trace in Hone.
    cbn [snd] in Hone.
    rewrite service_calls_app, length_app, Hruns, Hone. lia.
Qed.

(** X2. [getConfig] queries the configuration at least once and at
    most ten times, and asks nothing else of the world outside. *)
Theorem getConfig_queries_at_most_ten_times (quality : string) (s : State World) :
  let queries := service_calls (trace (getConfig services quality s)) in
  (1 <= length queries <= 10)%nat
  /\ Forall
       (fun ev => exists reply,
          ev = QueryConfig "dbs/builds/colls/config" quality reply)
       queries.
Proof.
  intros queries. subst queries. split.
  - unfold getConfig, log. rewrite trace_bind_emit. cbn.
    apply retry_calls_bound. intros s0. unfold call, trace.
    by destruct (db_queryConfig _ _ _ _).
  - eapply service_calls_kind; [|apply emits_getConfig].
    intros ev [Hconsole|Hquery] Hservice; [congruence|done].
Qed.

Lemma getConfig_after (quality : string) (s : State World) :
  getConfig services quality s
  = after [ConsoleLog [LTemplate [LStr "Getting config for quality "; LStr quality]]]
      (retry
         (call (db_queryConfig services "dbs/builds/colls/config" quality)
            (QueryConfig "dbs/builds/colls/config" quality)
            (fun reply =>
               match reply with
               | Err err =>
                   if negb (Js.code_is 409 err) then Rejected err
                   else Resolved (createDefaultConfig quality)
               | Ok [] => Resolved (createDefaultConfig quality)
               | Ok (config :: _) => Resolved config
               end))
         s).
Proof.
  unfold getConfig, bind, log, emit, after.
  by destruct (retry _ s) as [[r s1] t1].
Qed.

(** X3. How [getConfig] ends.  It gives up after ten connection
    resets; otherwise the last answer decides: the first document of an
    answer that has one, the default configuration of the quality, not
    frozen, for an answer without a document and for a conflict, and a
    failure with any other error, which is then no connection reset. *)
Theorem getConfig_ends_as_last_answer (quality : string) (s : State World) :
  let run := getConfig services quality s in
  outcome run = Rejected (Js.new_Error "Retried too many times")
  \/ exists reply,
       last (service_calls (trace run))
       = Some (QueryConfig "dbs/builds/colls/config" quality reply)
       /\ match reply with
          | Ok (config :: _) => outcome run = Resolved config
          | Ok [] =>
              outcome run
              = Resolved {| Config.id := quality; Config.frozen := false |}
          | Err err =>
              if Js.code_is 409 err
              then outcome run
                   = Resolved {| Config.id := quality; Config.frozen := false |}
              else outcome run = Rejected err /\ is_connection_reset err = false
          end.
Proof.
  intros run. subst run. rewrite getConfig_after. unfold retry.
  match goal with
  | |- context [retry_from ?n ?run ?fn] =>
      destruct (retry_from_cases fn n run s) as (k & s1 & t1 & Hruns & Hcases)
  end.
  unfold after, outcome, trace.
  destruct Hcases as [[-> ->]|(Hk & r & s2 & t2 & Hlast & Hr & ->)]; [by left|].
  right. unfold call in Hlast.
  destruct (db_queryConfig _ _ _ _) as [reply w]. injection Hlast as <- <- <-.
  exists reply. cbn [fst snd]. split.
  - change (ConsoleLog ?args :: ?l) with ([ConsoleLog args] ++ l).
    rewrite !service_calls_app. cbn. by rewrite last_snoc.
  - destruct reply as [[|config results]|err]; [done..|].
    destruct (Js.code_is 409 err); cbn [negb] in *; [done|]. split; [done|].
    by apply Hr.
Qed.

End GetConfig.

(** ** The calls of [createOrUpdate] *)

Section DocumentCalls.
Context {World : Type}.
Variable services : Services World.
Variables commit quality platform type : string.
Variable release : Release.t.
Variable asset : Asset.t.
Variable isUpdate : bool.

(** The calls to the world outside end with the query that found a
    document and the replacement of it that was accepted. *)
Let ends_with_replacement (t : list Event) : Prop :=
  exists pre found,
    let doc := updated_release platform type asset isUpdate found in
    service_calls t
    = pre ++ [QueryDocuments (collection quality) commit (Ok [found]);
              ReplaceDocument (Release._self doc) doc None].

Lemma update_body_resolved (again : M World unit) :
  (forall s s' t, again s = (Resolved tt, s', t) -> ends_with_replacement t) ->
  forall s s' t,
    update_body services commit quality platform type asset isUpdate again s
    = (Resolved tt, s', t) ->
    ends_with_replacement t.
Proof.
  intros Hagain s s' t.
  unfold update_body, bind, get_updateTries, set_updateTries, log, emit, call, throw.
  cbn [world updateTries].
  destruct (db_queryDocuments _ _ _ _) as [[[|found [|]]|err] w1]; try done.
  cbn [world updateTries].
  destruct (db_replaceDocument _ _ _ _) as [[err|] w2]; cbn [world updateTries].
  - destruct (Js.code_is 409 err && _); [|done].
    destruct (again _) as [[r s2] t2] eqn:Hrun. intros [= -> <- <-].
    destruct (Hagain _ _ _ Hrun) as (pre & found' & Hends).
    exists (QueryDocuments (collection quality) commit (Ok [found])
            :: ReplaceDocument
                 (Release._self (updated_release platform type asset isUpdate found))
                 (updated_release platform type asset isUpdate found) (Some err)
            :: pre), found'.
    cbn zeta in *. unfold service_calls in *. cbn. by rewrite Hends.
  - intros [= <- <-]. by exists [], found.
Qed.

Lemma update_fuel_resolved (fuel : nat) :
  forall s s' t,
    update_fuel services commit quality platform type asset isUpdate fuel s
    = (Resolved tt, s', t) ->
    ends_with_replacement t.
Proof.
  induction fuel as [|fuel IH]; cbn [update_fuel]; apply update_body_resolved.
  - done.
  - apply IH.
Qed.

Lemma createOrUpdate_resolved_calls (s s' : State World) (t : list Event) :
  createOrUpdate services commit quality platform type release asset isUpdate s
  = (Resolved tt, s', t) ->
  exists pre,
    service_calls t = pre ++ [CreateDocument (collection quality) release None]
    \/ exists found,
         let doc := updated_release platform type asset isUpdate found in
         service_calls t
         = pre ++ [QueryDocuments (collection quality) commit (Ok [found]);
                   ReplaceDocument (Release._self doc) doc None].
Proof.
  unfold createOrUpdate, bind at 1, set_updateTries, retry.
  destruct (retry_from _ _ _ _) as [[r s1] t1] eqn:Hretry. intros [= -> -> <-].
  apply retry_from_resolved in Hretry as (s2 & t0 & t2 & Hattempt & ->).
  rewrite ?app_nil_l, service_calls_app.
  revert Hattempt. unfold create_attempt, bind, log, emit, call.
  destruct (db_createDocument _ _ _ _) as [[err|] w]; cbn [world updateTries].
  - destruct (Js.code_is 409 err); [|done].
    destruct (update _ _ _ _ _ _ _ _) as [[r3 s3] t3] eqn:Hupdate.
    intros [= -> -> <-].
    apply update_fuel_resolved in Hupdate as (pre & found & Hends).
    exists (service_calls t0
            ++ CreateDocument (collection quality) release (Some err) :: pre).
    right. exists found. cbn zeta in *. unfold service_calls at 2. cbn.
    fold (service_calls t3). rewrite Hends. by rewrite <- app_assoc.
  - intros [= _ <-]. exists (service_calls t0). by left.
Qed.

(** X4. When [createOrUpdate] returns, the database has accepted a
    write, and it was its last call: either the creation of the release
    it was given, or the replacement of the one document that the query
    just before found, by its update. *)
Theorem createOrUpdate_returns_after_accepted_write
    (s s' : State World) (t : list Event) :
  createOrUpdate services commit quality platform type release asset isUpdate s
  = (Resolved tt, s', t) ->
  exists pre,
    service_calls t = pre ++ [CreateDocument (collection quality) release None]
    \/ exists found,
         let doc := updated_release platform type asset isUpdate found in
         service_calls t
         = pre ++ [QueryDocuments (collection quality) commit (Ok [found]);
                   ReplaceDocument (Release._self doc) doc None].
Proof. apply createOrUpdate_resolved_calls. Qed.

(** What a run changes of the count of updates, and how many calls of
    each kind it makes: the updates it starts are its queries, it
    replaces at most as often as it queries, and the count of updates
    ends at [bound] at most. *)
Let counted (creations bound : nat) (s : State World)
    (run : Outcome unit * State World * list Event) : Prop :=
  (count is_create_call (trace run) <= creations)%nat
  /\ (updateTries s + count is_documents_query (trace run)
      = updateTries (final run))%nat
  /\ (count is_replace (trace run) <= count is_documents_query (trace run))%nat
  /\ (updateTries (final run) <= bound)%nat.

Lemma count_app (kind : Event -> bool) (t1 t2 : list Event) :
  count kind (t1 ++ t2) = (count kind t1 + count kind t2)%nat.
Proof. unfold count. by rewrite List.filter_app, length_app. Qed.

Lemma update_body_counted (again : M World unit) (s : State World) :
  ((S (updateTries s) < MAX_UPDATE_TRIES)%nat ->
   forall w,
     counted 0 MAX_UPDATE_TRIES (mkState w (S (updateTries s)))
       (again (mkState w (S (updateTries s))))) ->
  counted 0 (Nat.max (S (updateTries s)) MAX_UPDATE_TRIES) s
    (update_body services commit quality platform type asset isUpdate again s).
Proof.
  intros Hagain. unfold counted, update_body, bind, get_updateTries, set_updateTries,
    log, emit, call, throw, trace, final.
  cbn [world updateTries].
  destruct (db_queryDocuments _ _ _ _) as [[[|found [|]]|err] w1];
    cbn [world updateTries fst snd]; try (cbn; repeat split; lia).
  destruct (db_replaceDocument _ _ _ _) as [[err|] w2];
    cbn [world updateTries fst snd]; [|cbn; repeat split; lia].
  destruct (Js.code_is 409 err); cbn [andb]; [|cbn; repeat split; lia].
  destruct (Nat.ltb_spec (S (updateTries s)) MAX_UPDATE_TRIES) as [Hlt|Hge];
    [|cbn; repeat split; lia].
  specialize (Hagain Hlt w2). unfold counted, trace, final in Hagain.
  destruct (again _) as [[r s2] t2]. cbn [fst snd updateTries] in *.
  change (?a :: ?b :: ?c :: ?d :: t2) with ([a; b; c; d] ++ t2).
  rewrite !count_app. unfold MAX_UPDATE_TRIES in *. cbn. repeat split; lia.
Qed.

Lemma update_fuel_counted (fuel : nat) :
  forall s,
    counted 0 (Nat.max (S (updateTries s)) MAX_UPDATE_TRIES) s
      (update_fuel services commit quality platform type asset isUpdate fuel s).
Proof.
  induction fuel as [|fuel IH]; intros s; cbn [update_fuel];
    apply update_body_counted; intros Hlt w.
  - unfold counted, never, trace, final. cbn. unfold MAX_UPDATE_TRIES in *.
    repeat split; lia.
  - specialize (IH (mkState w (S (updateTries s)))). cbn [updateTries] in IH.
    replace (Nat.max (S (S (updateTries s))) MAX_UPDATE_TRIES)
      with MAX_UPDATE_TRIES in IH by lia.
    exact IH.
Qed.

Lemma create_attempt_counted (s : State World) :
  counted 1 (Nat.max (S (updateTries s)) MAX_UPDATE_TRIES) s
    (create_attempt services commit quality platform type release asset isUpdate s).
Proof.
  unfold create_attempt, bind, log, emit, call, throw, update.
  destruct (db_createDocument _ _ _ _) as [[err|] w]; cbn [world updateTries].
  2: unfold counted, trace, final; cbn; repeat split; lia.
  destruct (Js.code_is 409 err).
  2: unfold counted, trace, final; cbn; repeat split; lia.
  pose proof (update_fuel_counted MAX_UPDATE_TRIES (mkState w (updateTries s)))
    as Hupdate.
  unfold counted, trace, final in *.
  destruct (update_fuel _ _ _ _ _ _ _ _ _) as [[r s2] t2].
  cbn [fst snd updateTries] in *.
  change (?a :: ?b :: t2) with ([a; b] ++ t2).
  rewrite !count_app. unfold MAX_UPDATE_TRIES in *. cbn. repeat split; lia.
Qed.

Lemma retry_from_counted (remaining : nat) :
  forall run s,
    counted remaining (Nat.max (updateTries s) (Nat.pred MAX_UPDATE_TRIES) + remaining) s
      (retry_from remaining run
         (create_attempt services commit quality platform type release asset
            isUpdate)
         s).
Proof.
  induction remaining as [|remaining IH]; intros run s.
  - rewrite retry_from_O. unfold counted, throw, trace, final. cbn.
    repeat split; lia.
  - rewrite retry_from_S. unfold try_catch.
    pose proof (create_attempt_counted s) as Hattempt.
    unfold counted, trace, final in *.
    destruct (create_attempt _ _ _ _ _ _ _ _ _) as [[[[]|err|] s1] t1];
      cbn [fst snd] in *; unfold MAX_UPDATE_TRIES in *; cbn [Nat.pred] in *;
      try (repeat split; lia).
    destruct (negb _); unfold throw; cbn [fst snd].
    { rewrite app_nil_r. repeat split; lia. }
    unfold bind, log, emit. specialize (IH (S run) s1).
    destruct (retry_from remaining (S run) _ s1) as [[r s2] t2].
    cbn [fst snd] in *.
    change (t1 ++ ?a :: t2) with (t1 ++ [a] ++ t2).
    rewrite !count_app. cbn. repeat split; lia.
Qed.

(** X6. [createOrUpdate] stops: it tries to create the document at
    least once and at most ten times, queries the documents of the
    commit at most fourteen times, and replaces a document at most as
    often as it queries.  (An update is started after each conflicting
    creation, whatever the count of updates; the count only bounds the
    updates that follow a conflicting replacement.) *)
Theorem createOrUpdate_calls_are_bounded (s : State World) :
  let t :=
    trace (createOrUpdate services commit quality platform type release asset
             isUpdate s) in
  (1 <= count is_create_call t <= 10)%nat
  /\ (count is_documents_query t <= 14)%nat
  /\ (count is_replace t <= count is_documents_query t)%nat.
Proof.
  intros t. subst t.
  assert (createOrUpdate services commit quality platform type release asset
            isUpdate s
          = retry
              (create_attempt services commit quality platform type release asset
                 isUpdate)
              (mkState (world s) 0)) as Hunfold.
  { unfold createOrUpdate, bind, set_updateTries.
    by destruct (retry _ _) as [[r s1] t1]. }
  destruct (createOrUpdate_creates_first services commit quality platform type
              release asset isUpdate s) as (err & rest & Hfirst).
  assert (1 <= count is_create_call
                 (trace (createOrUpdate services commit quality platform type
                           release asset isUpdate s)))%nat as Hone.
  { rewrite Hfirst. change (?a :: ?b :: rest) with ([a; b] ++ rest).
    rewrite count_app. cbn. lia. }
  revert Hone. clear Hfirst. rewrite Hunfold. unfold retry.
  pose proof (retry_from_counted RETRY_TIMES 1 (mkState (world s) 0)) as Hretry.
  unfold counted, trace, final in *.
  destruct (retry_from _ _ _ _) as [[r s1] t1].
  cbn [fst snd updateTries] in *.
  unfold RETRY_TIMES, MAX_UPDATE_TRIES in *. cbn [Nat.pred] in *.
  repeat split; lia.
Qed.

End DocumentCalls.

(** ** More on the runs of [publish] *)

Section MorePublishRuns.
Context {World : Type}.
Variable services : Services World.
Variable modules : Modules.
Variable process : Process.
Variables commit quality platform type name version _isUpdate file : string.
Variable opts : Argv.

Let run (s : State World) : Outcome unit * State World * list Event :=
  publish services modules process commit quality platform type name version
    _isUpdate file opts s.

Lemma last_service_call (t : list Event) (ev : Event) :
  is_console ev = false -> last (service_calls (t ++ [ev])) = Some ev.
Proof.
  intros Hev. rewrite service_calls_app. unfold service_calls at 2. cbn.
  rewrite Hev. cbn. apply last_snoc.
Qed.

(** X5. When [publish] returns, its last call to the world outside is
    the check that found the blob, or a creation or a replacement of a
    release document that the database accepted. *)
Theorem publish_returns_after_check_or_write (s : State World) :
  outcome (run s) = Resolved tt ->
  exists ev,
    last (service_calls (trace (run s))) = Some ev
    /\ (ev = DoesBlobExist quality (commit +:+ "/" +:+ name) (Ok true)
        \/ accepted_write ev = true).
Proof.
  subst run. cbn beta. publish_cases; try discriminate.
  - intros _. eexists. split; [reflexivity|]. by left.
  - intros ->.
    apply createOrUpdate_resolved_calls in Hrecord as (pre & Hcalls).
    unfold service_calls. cbn. rewrite List.filter_app. cbn.
    fold (service_calls configs) (service_calls docs).
    destruct Hcalls as [->|(found & ->)]; eexists.
    + split; [rewrite !app_comm_cons, !app_assoc; apply last_snoc|].
      by right.
    + split;
        [cbn zeta; change [?a; ?b] with ([a] ++ [b]);
         rewrite !app_comm_cons, !app_assoc; apply last_snoc|].
      by right.
Qed.

Lemma config_call_no_failure (ev : Event) :
  config_call quality ev -> early_failure ev = None.
Proof. intros [Hconsole|[reply ->]]; [by destruct ev|done]. Qed.

Lemma document_call_no_failure (release : Release.t) (asset : Asset.t)
    (isUpdate : bool) (ev : Event) :
  document_call commit quality platform type release asset isUpdate ev ->
  early_failure ev = None.
Proof.
  intros [Hconsole|[[err ->]|[[reply ->]|(found & err & ->)]]]; [|done..].
  by destruct ev.
Qed.

(** X7. The first error stops [publish].  When [fs.stat], the stream
    of the file, the assertion of the container, the check of the blob
    or the upload fails, [publish] fails with that very error, and the
    failed call is the last thing it did. *)
Theorem publish_fails_with_first_error (s : State World) (ev : Event)
    (failure : Js.Error) :
  ev ∈ trace (run s) ->
  early_failure ev = Some failure ->
  outcome (run s) = Rejected failure /\ last (trace (run s)) = Some ev.
Proof.
  subst run. cbn beta. publish_cases; intros Hin Hfailure.
  all: find_kind Hin Hfailure.
  all: try (injection Hfailure as <-; split; reflexivity).
  - exfalso. apply elem_of_app in Hin as [Hin|Hin].
    + eapply Forall_forall in Hconfigs; [|done].
      apply config_call_no_failure in Hconfigs. congruence.
    + find_kind Hin Hfailure. eapply Forall_forall in Hdocs; [|done].
      apply document_call_no_failure in Hdocs. congruence.
  - exfalso. eapply Forall_forall in Hconfigs; [|done].
    apply config_call_no_failure in Hconfigs. congruence.
  - exfalso. eapply Forall_forall in Hconfigs; [|done].
    apply config_call_no_failure in Hconfigs. congruence.
Qed.



(** X9. The asset a document records describes the file of the run.
    Whenever a run of [publish] creates a document without
    [--upload-only], or replaces a document, the asset the document
    records (its only asset, or its last) has for size the size that
    [fs.stat] answered in that run, and for hashes the SHA-1 and SHA-256
    digests of what the stream of the file delivered in that run. *)
Theorem recorded_asset_describes_file (s : State World) (ev : Event)
    (asset : Asset.t) :
  ev ∈ trace (run s) ->
  recorded_asset opts ev = Some asset ->
  exists size chunks,
    FsStat file (Ok size) ∈ trace (run s)
    /\ FsReadStream file (Closed chunks) ∈ trace (run s)
    /\ asset
       = new_asset process quality platform type (commit +:+ "/" +:+ name)
           (crypto_digest modules "sha1" chunks)
           (crypto_digest modules "sha256" chunks) size
    /\ Asset.size asset = size
    /\ Asset.hash asset = crypto_digest modules "sha1" chunks
    /\ Asset.sha256hash asset = crypto_digest modules "sha256" chunks.
Proof.
  subst run. cbn beta. publish_cases; intros Hin Hasset.
  all: find_kind Hin Hasset.
  2-3: exfalso; eapply Forall_forall in Hconfigs; [|done];
       destruct Hconfigs as [Hconsole|[reply ->]]; [by destruct ev|done].
  exists size, chunks.
  split; [by apply (list_elem_of_lookup_2 _ 9%nat)|].
  split; [by apply (list_elem_of_lookup_2 _ 11%nat)|].
  assert (asset
          = new_asset process quality platform type (commit +:+ "/" +:+ name)
              (crypto_digest modules "sha1" chunks)
              (crypto_digest modules "sha256" chunks) size) as ->; [|done].
  apply elem_of_app in Hin as [Hin|Hin].
  { exfalso. eapply Forall_forall in Hconfigs; [|done].
    destruct Hconfigs as [Hconsole|[reply ->]]; [by destruct ev|done]. }
  find_kind Hin Hasset.
  eapply Forall_forall in Hdocs; [|done].
  destruct Hdocs as [Hconsole|[[err' ->]|[[reply ->]|(found & err' & ->)]]].
  - by destruct ev.
  - cbn in Hasset. destruct (upload_only opts); [done|]. by injection Hasset.
  - done.
  - cbn zeta in Hasset. cbn [recorded_asset] in Hasset.
    rewrite updated_release_assets in Hasset. unfold updated_assets in Hasset.
    rewrite last_snoc in Hasset. by injection Hasset.
Qed.

End MorePublishRuns.

(** ** Patterns and what they match *)

Section Patterns.

Lemma matches_here_literal_spec (p s : string) :
  Js.matches_here (Js.literal p) s = true <-> exists rest, s = p +:+ rest.
Proof.
  revert s. induction p as [|c p IH]; intros s.
  - split; [|done]. intros _. by exists s.
  - change (Js.literal (String c p)) with (Js.Lit c :: Js.literal p).
    destruct s as [|c' s]; cbn [Js.matches_here Js.atom_matches].
    + split; [done|]. by intros [rest [=]].
    + rewrite andb_true_iff, Ascii.eqb_eq, IH. split.
      * intros [-> [rest ->]]. by exists rest.
      * intros [rest [= -> ->]]. split; [done|]. by exists rest.
Qed.

Lemma test_literal_spec (p s : string) :
  Js.test (Js.literal p) s = true <-> exists pre rest, s = pre +:+ p +:+ rest.
Proof.
  induction s as [|c s IH]; cbn [Js.test].
  - rewrite orb_false_r, matches_here_literal_spec. split.
    + intros [rest Hrest]. by exists "", rest.
    + intros ([|c pre] & rest & Hs); [by exists rest|done].
  - rewrite orb_true_iff, matches_here_literal_spec, IH. split.
    + intros [[rest ->]|(pre & rest & ->)].
      * by exists "", rest.
      * by exists (String c pre), rest.
    + intros ([|c' pre] & rest & Hs).
      * left. by exists rest.
      * right. injection Hs as -> ->. by exists pre, rest.
Qed.

End Patterns.

(** ** What [retry] retries *)

Section RetryTest.
Context {World : Type}.

(** X12. The error that [retry] retries.  When the first run of [fn]
    fails, [retry] logs the error and goes on with the second run
    exactly when ECONNRESET occurs in the message of the error, read as
    the string "undefined" when the error has no message; otherwise it
    fails with the error at once.  So an error without a message, as
    the database's conflicts, is never retried. *)
Theorem retry_retries_messages_with_ECONNRESET {A} (fn : M World A)
    (s s1 : State World) (t1 : list Event) (err : Js.Error) :
  fn s = (Rejected err, s1, t1) ->
  ((exists pre post,
      Js.String_ (Js.message err) = pre +:+ "ECONNRESET" +:+ post) ->
   retry fn s
   = after (t1 ++ [ConsoleLog (caught err 1)]) (retry_from 9 2 fn s1))
  /\ (~ (exists pre post,
           Js.String_ (Js.message err) = pre +:+ "ECONNRESET" +:+ post) ->
      retry fn s = (Rejected err, s1, t1))
  /\ (Js.message err = None -> retry fn s = (Rejected err, s1, t1)).
Proof.
  intros Hfn.
  assert (is_connection_reset err = false -> retry fn s = (Rejected err, s1, t1))
    as Hrethrown.
  { intros Herr. unfold retry. change RETRY_TIMES with (S 9). rewrite retry_from_S.
    unfold try_catch. rewrite Hfn, Herr. cbn [negb]. unfold throw.
    by rewrite app_nil_r. }
  split; [|split].
  - intros Hreset%test_literal_spec. unfold retry. change RETRY_TIMES with (S 9).
    rewrite retry_from_S. unfold try_catch. rewrite Hfn.
    unfold is_connection_reset. rewrite Hreset. cbn [negb].
    unfold bind, log, emit, after.
    destruct (retry_from 9 2 fn s1) as [[r s2] t2]. by rewrite <- app_assoc.
  - intros Hnone. apply Hrethrown. apply not_true_is_false.
    intros Hreset. apply Hnone. by apply test_literal_spec.
  - intros Hmessage. apply Hrethrown. unfold is_connection_reset.
    by rewrite Hmessage.
Qed.

End RetryTest.

(** ** Released builds *)

Section Released.
Variable process : Process.

(** X10. A release is marked as released only when it was queued by
    someone, and either its quality is insider and its source branch is
    main, or its quality is rc1 and its source branch is a release
    branch.  A build whose queuing identity or source branch is not in
    the environment is never marked as released. *)
Theorem released_only_from_main_or_a_release_branch
    (commit quality platform type version : string) (isUpdate : bool)
    (opts : Argv) (asset : Asset.t) (now : Z) :
  Release.isReleased
    (new_release process commit quality platform type version isUpdate opts asset
       now)
  = true ->
  (exists queuedBy, env process !! "BUILD_QUEUEDBY" = Some queuedBy)
  /\ exists sourceBranch,
       env process !! "BUILD_SOURCEBRANCH" = Some sourceBranch
       /\ ((quality = "insider"
            /\ (sourceBranch = "main" \/ sourceBranch = "refs/heads/main"))
           \/ (quality = "rc1"
               /\ exists rest,
                    sourceBranch = "release/" +:+ rest
                    \/ sourceBranch = "refs/heads/release/" +:+ rest)).
Proof.
  unfold new_release, is_released. cbn [Release.isReleased].
  rewrite andb_true_iff. intros [Hbranch HqueuedBy]. split.
  - destruct (env process !! "BUILD_QUEUEDBY") as [queuedBy|]; [by eexists|].
    exfalso. revert HqueuedBy. by vm_compute.
  - destruct (env process !! "BUILD_SOURCEBRANCH") as [sourceBranch|].
    + exists sourceBranch. split; [done|]. cbn [Js.String_] in Hbranch.
      apply orb_true_iff in Hbranch as [Hmain|Hrelease].
      * left. apply andb_true_iff in Hmain as [Hquality Hmain].
        apply String.eqb_eq in Hquality.
        apply orb_true_iff in Hmain as [Hmain|Hmain]; apply String.eqb_eq in Hmain;
          auto.
      * right. apply andb_true_iff in Hrelease as [Hquality Hrelease].
        apply String.eqb_eq in Hquality. split; [done|].
        unfold Js.test_anchored_start in Hrelease.
        apply orb_true_iff in Hrelease as [Hrelease|Hrelease];
          apply matches_here_literal_spec in Hrelease as [rest ->]; exists rest; auto.
    + exfalso. cbn [Js.String_] in Hbranch.
      apply orb_true_iff in Hbranch as [Hmain|Hrelease].
      * apply andb_true_iff in Hmain as [_ Hmain]. revert Hmain. by vm_compute.
      * apply andb_true_iff in Hrelease as [_ Hrelease]. revert Hrelease.
        by vm_compute.
Qed.

End Released.

(** ** A command line without the file *)

Section MissingFile.
Context {World : Type}.
Variable services : Services World.
Variable modules : Modules.
Variable process : Process.

(** X11. With fewer than seven positional arguments on the command
    line, the call of [publish] in [main] fails before it asks anything
    of the world outside: it only writes to the console, and it leaves
    the state as it was. *)
Theorem publish_without_seven_arguments_fails (opts : Argv) (commit : string)
    (s : State World) :
  (length (positional opts) < 7)%nat ->
  exists err t,
    publish_from services modules process opts commit s = (Rejected err, s, t)
    /\ service_calls t = [].
Proof.
  intros Hshort. unfold publish_from.
  destruct (positional opts) as [|quality [|platform [|type [|name [|version
              [|_isUpdate [|file rest]]]]]]]; cbn [length] in Hshort; try lia.
  all: by eexists _, _.
Qed.

End MissingFile.

(** ** The status of the process *)

Section Status.
Context {World : Type}.
Variable services : Services World.
Variable modules : Modules.
Variable process : Process.

(** X17. The script always ends, with status 0, 1 or -1; when the
    status is not 0, the call of [process.exit] with that status is the
    last thing the script does. *)
Theorem script_ends_with_status (s : State World) :
  exists status : Z,
    (script services modules process s).1.1 = Some status
    /\ (status = 0%Z
        \/ ((status = 1%Z \/ status = (-1)%Z)
            /\ last (script services modules process s).2
               = Some (ProcessExit status))).
Proof.
  unfold script. destruct (_ <? _)%nat.
  { exists (-1)%Z. split; [done|]. right. split; [by right|done]. }
  unfold main. destruct (env process !! "BUILD_SOURCEVERSION") as [[|c commit]|].
  1, 3: exists 0%Z; split; [done|by left].
  pose proof (fun opts => publish_settles services modules process (String c commit)
                            opts) as Hsettles.
  unfold publish_from.
  destruct (positional _) as [|quality [|platform [|type [|name [|version
              [|_isUpdate [|file rest]]]]]]].
  1-7: exists 1%Z; split; [done|]; right; split; [by left|done].
  specialize (Hsettles quality platform type name version _isUpdate file
                (minimist modules (drop 2 (argv process))) s).
  destruct (publish _ _ _ _ _ _ _ _ _ _ _ _ _) as [[[[]|err|] s'] t]; [| |done].
  - exists 0%Z. split; [done|by left].
  - exists 1%Z. split; [done|]. right. split; [by left|].
    unfold exit. cbn [snd]. apply last_snoc.
Qed.

End Status.

(** ** More on the cell editors *)

Section MoreEditors.
Import TableCellEditor.
Context `{Toolkit} {Ctx : Type}.

Lemma run_keeps_args (self : TableCellEditorFactory (Ctx := Ctx))
    (inputType : InputType) (actions : list Session.Action) :
  forall e, TextEditor._args (Session.run self inputType actions e) = TextEditor._args e.
Proof.
  unfold Session.run.
  induction actions as [|action actions IH]; intros e; [done|].
  cbn [fold_left]. rewrite IH. by destruct action.
Qed.

Lemma run_originalValue (self : TableCellEditorFactory (Ctx := Ctx))
    (inputType : InputType) (column : Column) (actions : list Session.Action) :
  forall e loaded,
    column = TableCellEditor.column (TextEditor._args e) ->
    TextEditor._originalValue e = loaded ->
    TextEditor._originalValue (Session.run self inputType actions e)
    = fold_left
        (fun loaded action =>
           match action with
           | Session.Load item => Some (default "" (_valueGetter self item column))
           | _ => loaded
           end)
        actions loaded.
Proof.
  unfold Session.run.
  induction actions as [|action actions IH]; intros e loaded Hcolumn Hloaded;
    [done|].
  cbn [fold_left]. apply IH.
  - by destruct action.
  - destruct action; cbn; by subst.
Qed.

(** X14. In every state a text editor can reach, [isValueChanged]
    compares the value [serializeValue] returns with the value of the
    last [loadValue]: whatever was focused, typed, destroyed or built
    anew since, it is true exactly when the two differ.  As long as no
    value was loaded, it throws. *)
Theorem isValueChanged_compares_with_last_load
    (self : TableCellEditorFactory (Ctx := Ctx)) (inputType : InputType)
    (args : EditorOptions) (actions : list Session.Action) :
  let e := Session.run self inputType actions (TextEditor.new self inputType args) in
  TextEditor.isValueChanged e
  = (fun loaded => negb (String.eqb (TextEditor.serializeValue e) loaded))
    <$> Session.last_loaded self (column args) actions.
Proof.
  intros e. subst e. unfold TextEditor.isValueChanged, Session.last_loaded.
  rewrite (run_originalValue self inputType (column args) actions
             (TextEditor.new self inputType args) None); [|done..].
  by destruct (fold_left _ actions None).
Qed.

(** The one fact about the input box the text editor relies on. *)
Hypothesis InputBox_keeps_value :
  forall (value : string) (input : InputBox),
    InputBox_value (InputBox_set_value value input) = value.


End MoreEditors.

(** ** The options of the dropdown editor *)

Section DropdownOptions.
Import TableCellEditor.
Context `{Toolkit} {Ctx : Type}.
Variable self : TableCellEditorFactory (Ctx := Ctx).
Variable defaultOptions : option (list string).
Variable isEditable : bool.

Lemma indexOf_None (x : string) (l : list string) :
  indexOf x l = None <-> x ∉ l.
Proof.
  induction l as [|y l IH]; cbn [indexOf].
  - split; [intros _; apply not_elem_of_nil|done].
  - rewrite not_elem_of_cons. destruct (String.eqb_spec y x) as [->|Hne].
    + split; [done|]. by intros [? _].
    + destruct (indexOf x l); cbn.
      * split; [done|]. intros [_ Hnotin]. by apply IH in Hnotin.
      * split; [|done]. intros _. split; [done|]. by apply IH.
Qed.

Lemma indexOf_Some (x : string) (l : list string) (i : nat) :
  indexOf x l = Some i -> l !! i = Some x.
Proof.
  revert i. induction l as [|y l IH]; intros i; cbn [indexOf]; [done|].
  destruct (String.eqb_spec y x) as [->|Hne].
  - by intros [= <-].
  - destruct (indexOf x l) as [j|]; cbn; [|done]. intros [= <-]. by apply IH.
Qed.

(** The options [loadValue] looks the value up in. *)
Let options_of (item : SlickData) (e : DropdownEditor.t) : option (list string) :=
  match _optionsGetter self item (column (DropdownEditor._args e)) with
  | Some options => Some options
  | None => defaultOptions
  end.

Let loaded_of (item : SlickData) (e : DropdownEditor.t) : string :=
  default "" (_valueGetter self item (column (DropdownEditor._args e))).

(** X15. A dropdown editor does not show a value that is not one of
    its options.  When the value loaded for a row is none of the
    options, or when there are no options at all, [loadValue] leaves
    both widgets as they were: [serializeValue] still returns what it
    returned before, while [isValueChanged] now compares it with the
    loaded value. *)
Theorem loadValue_skips_a_value_that_is_no_option (item : SlickData)
    (e : DropdownEditor.t) :
  (forall options, options_of item e = Some options -> loaded_of item e ∉ options) ->
  let e' := DropdownEditor.loadValue self defaultOptions isEditable item e in
  DropdownEditor._selectBox e' = DropdownEditor._selectBox e
  /\ DropdownEditor._dropdown e' = DropdownEditor._dropdown e
  /\ DropdownEditor.serializeValue isEditable e'
     = DropdownEditor.serializeValue isEditable e
  /\ DropdownEditor.isValueChanged isEditable e'
     = (fun value => negb (String.eqb value (loaded_of item e)))
       <$> DropdownEditor.serializeValue isEditable e.
Proof.
  intros Hnone e'. subst e'. unfold options_of, loaded_of in *.
  unfold DropdownEditor.loadValue, DropdownEditor.serializeValue,
    DropdownEditor.isValueChanged, DropdownEditor.widget_value.
  destruct (match _optionsGetter self item _ with Some _ => _ | None => _ end)
    as [options|] eqn:Hoptions.
  - specialize (Hnone options eq_refl). apply indexOf_None in Hnone.
    rewrite Hnone. cbn. by repeat split.
  - cbn. by repeat split.
Qed.

(** The facts about the widgets the dropdown editor relies on: the
    dropdown gives back the value it was given, the select box the
    option that was selected. *)
Hypothesis Dropdown_keeps_value :
  forall (value : string) (dropdown : Dropdown),
    Dropdown_value (Dropdown_set_value value dropdown) = value.
Hypothesis SelectBox_shows_selected :
  forall (options : list string) (index : nat) (box : SelectBox),
    SelectBox_value (SelectBox_select index (SelectBox_setOptions options box))
    = default "" (options !! index).

(** X16. A dropdown editor shows a value that is one of its options.
    When the value loaded for a row is one of the options, a new editor,
    of either kind, returns it from [serializeValue] after [loadValue],
    and [isValueChanged] is false. *)
Theorem loadValue_shows_a_value_that_is_an_option (item : SlickData)
    (args : EditorOptions) (options : list string) :
  let e := DropdownEditor.new self isEditable args in
  options_of item e = Some options ->
  loaded_of item e ∈ options ->
  let e' := DropdownEditor.loadValue self defaultOptions isEditable item e in
  DropdownEditor.serializeValue isEditable e' = Some (loaded_of item e)
  /\ DropdownEditor.isValueChanged isEditable e' = Some false.
Proof.
  intros e Hoptions Hin e'. subst e'. unfold options_of, loaded_of in *.
  unfold DropdownEditor.loadValue, DropdownEditor.serializeValue,
    DropdownEditor.isValueChanged, DropdownEditor.widget_value.
  rewrite Hoptions.
  destruct (indexOf _ options) as [idx|] eqn:Hidx;
    [|by apply indexOf_None in Hidx].
  apply indexOf_Some in Hidx.
  subst e. unfold DropdownEditor.new, DropdownEditor.init_widgets in *.
  destruct isEditable; cbn.
  - rewrite Hidx. cbn. rewrite Dropdown_keeps_value. cbn.
    by rewrite String.eqb_refl.
  - rewrite SelectBox_shows_selected, Hidx. cbn. by rewrite String.eqb_refl.
Qed.

End DropdownOptions.

(** ** The further statements on runs in memory *)

Module MoreRuns.
Import InMemory Fixtures.

Ltac call_number i :=
  apply (list_elem_of_lookup_2 _ i); vm_compute; reflexivity.

Lemma createOrUpdate_returns_after_accepted_write_witness :
  record_setup (start published)
  = (Resolved tt, final (record_setup (start published)),
     trace (record_setup (start published)))
  /\ exists pre found,
       let doc := updated_release "win32-x64" "setup" setup false found in
       service_calls (trace (record_setup (start published)))
       = pre ++ [QueryDocuments (collection "insider") "c0ffee" (Ok [found]);
                 ReplaceDocument (Release._self doc) doc None].
Proof.
  assert (record_setup (start published)
          = (Resolved tt, final (record_setup (start published)),
             trace (record_setup (start published)))) as Hreturns
    by (vm_compute; reflexivity).
  split; [exact Hreturns|].
  destruct (createOrUpdate_returns_after_accepted_write services "c0ffee"
              "insider" "win32-x64" "setup" setup_release setup false _ _ _
              Hreturns) as (pre & [Hcreated|(found & Hreplaced)]).
  - exfalso. apply (f_equal last) in Hcreated. rewrite last_snoc in Hcreated.
    revert Hcreated. vm_compute. discriminate.
  - by exists pre, found.
Defined.

Lemma publish_returns_after_check_or_write_witness :
  outcome (first_publish false) = Resolved tt
  /\ exists ev,
       last (service_calls (trace (first_publish false))) = Some ev
       /\ (ev = DoesBlobExist "insider" ("c0ffee" +:+ "/" +:+ "product.zip") (Ok true)
           \/ accepted_write ev = true).
Proof.
  assert (outcome (first_publish false) = Resolved tt) as Hreturns
    by (vm_compute; reflexivity).
  split; [exact Hreturns|].
  exact (publish_returns_after_check_or_write services modules (process false)
           "c0ffee" "insider" "win32-x64" "archive" "product.zip" "1.25.0" "true"
           "/build/product.zip" (command (process false)) (start empty) Hreturns).
Defined.

(** The file is missing: [publish] fails with the error of [fs.stat]. *)
Lemma publish_fails_with_first_error_witness :
  FsStat "/build/product.zip" (Err ENOENT)
  ∈ trace
      (publish services modules (process false) "c0ffee" "insider" "win32-x64"
         "archive" "product.zip" "1.25.0" "true" "/build/product.zip"
         (command (process false)) (start without_file))
  /\ outcome
       (publish services modules (process false) "c0ffee" "insider" "win32-x64"
          "archive" "product.zip" "1.25.0" "true" "/build/product.zip"
          (command (process false)) (start without_file))
     = Rejected ENOENT.
Proof.
  assert (FsStat "/build/product.zip" (Err ENOENT)
          ∈ trace
              (publish services modules (process false) "c0ffee" "insider"
                 "win32-x64" "archive" "product.zip" "1.25.0" "true"
                 "/build/product.zip" (command (process false))
                 (start without_file))) as Hfailed by call_number 9%nat.
  split; [exact Hfailed|].
  exact (proj1 (publish_fails_with_first_error services modules (process false)
                  "c0ffee" "insider" "win32-x64" "archive" "product.zip" "1.25.0"
                  "true" "/build/product.zip" (command (process false))
                  (start without_file) _ ENOENT Hfailed eq_refl)).
Defined.


Lemma recorded_asset_describes_file_witness :
  CreateDocument "dbs/builds/colls/insider" created_with_asset None
  ∈ trace (first_publish false)
  /\ recorded_asset (command (process false))
       (CreateDocument "dbs/builds/colls/insider" created_with_asset None)
     = Some archive
  /\ exists size chunks,
       FsStat "/build/product.zip" (Ok size) ∈ trace (first_publish false)
       /\ FsReadStream "/build/product.zip" (Closed chunks)
          ∈ trace (first_publish false)
       /\ Asset.size archive = size
       /\ Asset.hash archive = crypto_digest modules "sha1" chunks
       /\ Asset.sha256hash archive = crypto_digest modules "sha256" chunks.
Proof.
  assert (CreateDocument "dbs/builds/colls/insider" created_with_asset None
          ∈ trace (first_publish false)) as Hcreated by call_number 24%nat.
  assert (recorded_asset (command (process false))
            (CreateDocument "dbs/builds/colls/insider" created_with_asset None)
          = Some archive) as Hrecorded by (vm_compute; reflexivity).
  split; [exact Hcreated|]. split; [exact Hrecorded|].
  destruct (recorded_asset_describes_file services modules (process false)
              "c0ffee" "insider" "win32-x64" "archive" "product.zip" "1.25.0"
              "true" "/build/product.zip" (command (process false)) (start empty)
              _ archive Hcreated Hrecorded)
    as (size & chunks & Hstat & Hstream & _ & Hsize & Hsha1 & Hsha256).
  by exists size, chunks.
Defined.

Lemma released_only_from_main_or_a_release_branch_witness :
  Release.isReleased created_with_asset = true
  /\ exists queuedBy, env (process false) !! "BUILD_QUEUEDBY" = Some queuedBy.
Proof.
  assert (Release.isReleased created_with_asset = true) as Hreleased
    by (vm_compute; reflexivity).
  split; [exact Hreleased|].
  exact (proj1 (released_only_from_main_or_a_release_branch (process false)
                  "c0ffee" "insider" "win32-x64" "archive" "1.25.0" true
                  (command (process false)) archive (clock empty) Hreleased)).
Defined.

Lemma publish_without_seven_arguments_fails_witness :
  (length (positional (command process_without_file)) < 7)%nat
  /\ exists err t,
       publish_from services modules process_without_file
         (command process_without_file) "c0ffee" (start empty)
       = (Rejected err, start empty, t)
       /\ service_calls t = [].
Proof.
  assert (length (positional (command process_without_file)) < 7)%nat as Hshort
    by (vm_compute; lia).
  split; [exact Hshort|].
  exact (publish_without_seven_arguments_fails services modules
           process_without_file (command process_without_file) "c0ffee"
           (start empty) Hshort).
Defined.

(** A first run that is reset is retried; a first run that fails with
    a conflict is not. *)
Lemma retry_retries_messages_with_ECONNRESET_witness :
  retry (counting (fun n => if (n <? 1)%nat then Rejected ECONNRESET else Resolved n))
    (mkState 0%nat 0)
  = after [FsStat "call" (Ok 0%Z); ConsoleLog (caught ECONNRESET 1)]
      (retry_from 9 2
         (counting (fun n => if (n <? 1)%nat then Rejected ECONNRESET else Resolved n))
         (mkState 1%nat 0))
  /\ retry (counting (fun _ => Rejected conflict)) (mkState 0%nat 0)
     = (Rejected conflict, mkState 1%nat 0, [FsStat "call" (Ok 0%Z)]).
Proof.
  split.
  - apply (proj1 (retry_retries_messages_with_ECONNRESET
                    (counting (fun n => if (n <? 1)%nat then Rejected ECONNRESET
                                        else Resolved n))
                    (mkState 0%nat 0) (mkState 1%nat 0) [FsStat "call" (Ok 0%Z)]
                    ECONNRESET eq_refl)).
    by exists "read ", "".
  - exact (proj2 (proj2 (retry_retries_messages_with_ECONNRESET
                           (counting (fun _ => Rejected conflict))
                           (mkState 0%nat 0) (mkState 1%nat 0)
                           [FsStat "call" (Ok 0%Z)] conflict eq_refl))
             eq_refl).
Defined.

(** The bounds of [createOrUpdate] are reached: ten creations, fourteen
    queries and four replacements with the stubborn database. *)
Example createOrUpdate_bounds_are_reached :
  let t :=
    trace (createOrUpdate stubborn "c0ffee" "insider" "win32-x64" "setup"
             setup_release setup false (mkState 0%nat 0)) in
  count is_create_call t = 10%nat
  /\ count is_documents_query t = 14%nat
  /\ count is_replace t = 4%nat.
Proof. vm_compute. by repeat split. Qed.

End MoreRuns.

(** ** The further statements on the toolkit of plain values *)

Module MorePlainEditors.
Import TableCellEditor Plain Fixtures.


(** The default options are none: the value of the row is not shown. *)
Lemma loadValue_skips_a_value_that_is_no_option_witness :
  let e := DropdownEditor.new factory false args in
  DropdownEditor.serializeValue false
    (DropdownEditor.loadValue factory None false item e)
  = DropdownEditor.serializeValue false e
  /\ DropdownEditor.isValueChanged false
       (DropdownEditor.loadValue factory None false item e)
     = Some true.
Proof.
  intros e.
  destruct (loadValue_skips_a_value_that_is_no_option factory None false item e)
    as (_ & _ & Hsame & Hchanged).
  { intros options [= <-]. apply not_elem_of_nil. }
  split; [exact Hsame|exact Hchanged].
Defined.

Lemma loadValue_shows_a_value_that_is_an_option_witness :
  (forall (value : string) (dropdown : Dropdown),
     Dropdown_value (Dropdown_set_value value dropdown) = value)
  /\ (forall (options : list string) (index : nat) (box : SelectBox),
        SelectBox_value (SelectBox_select index (SelectBox_setOptions options box))
        = default "" (options !! index))
  /\ DropdownEditor.serializeValue false
       (DropdownEditor.loadValue factory_with_options None false item
          (DropdownEditor.new factory_with_options false args))
     = Some "orders"
  /\ DropdownEditor.serializeValue true
       (DropdownEditor.loadValue factory_with_options None true item
          (DropdownEditor.new factory_with_options true args))
     = Some "orders".
Proof.
  assert (forall (value : string) (dropdown : Dropdown),
            Dropdown_value (Dropdown_set_value value dropdown) = value) as Hdropdown
    by (intros; reflexivity).
  assert (forall (options : list string) (index : nat) (box : SelectBox),
            SelectBox_value (SelectBox_select index (SelectBox_setOptions options box))
            = default "" (options !! index)) as Hselect
    by (intros; reflexivity).
  split; [exact Hdropdown|]. split; [exact Hselect|]. split.
  - refine (proj1 (loadValue_shows_a_value_that_is_an_option factory_with_options
                     None false Hdropdown Hselect item args ["invoices"; "orders"]
                     eq_refl _)).
    vm_compute. set_solver.
  - refine (proj1 (loadValue_shows_a_value_that_is_an_option factory_with_options
                     None true Hdropdown Hselect item args ["invoices"; "orders"]
                     eq_refl _)).
    vm_compute. set_solver.
Defined.

End MorePlainEditors.
